(** * wails-plugin-sqlite: the database lifecycle of [plugin.go]

    A shallow embedding of the plugin's [Init] / [Shutdown] / [GetDB] /
    [SetDB] methods ([src/plugin.go]) together with the parts of the Go
    standard library they call ([path/filepath], [os], [database/sql]),
    and the properties of the lifecycle proved over it.

    Layout:
    - [filepath]  : [Clean], [Join], [Dir] of Go's [path/filepath];
    - [Config], [Sqlite], [World] : the plugin's structs and the outside
      world (environment, file system, driver, log);
    - the [Go] monad: state passing with panics, and the primitives;
    - the plugin's methods, line by line;
    - the properties. *)

From Stdlib Require Import ZArith Lia Bool Ascii.
From stdpp Require Import base option list strings gmap.

Local Open Scope Z_scope.

(** ** Strings as Go uses them *)

Module Str.

(** [strings.Join(elems, sep)] *)
Fixpoint join (sep : string) (elems : list string) : string :=
  match elems with
  | [] => ""
  | [e] => e
  | e :: rest => e +:+ sep +:+ join sep rest
  end.

(** [s == ""] *)
Definition is_empty (s : string) : bool :=
  match s with "" => true | _ => false end.

(** The last two bytes of [s] are [a], [b] (Go: [s[len(s)-2]], [s[len(s)-1]]). *)
Fixpoint ends_with2 (p : ascii -> bool) (b : ascii) (s : string) : bool :=
  match s with
  | String x (String y "") => p x && bool_decide (y = b)
  | String _ s' => ends_with2 p b s'
  | "" => false
  end.

(** [strings.CutPrefix(s, pre)] *)
Fixpoint strip_prefix (pre s : string) : option string :=
  match pre, s with
  | "", _ => Some s
  | String a pre', String b s' =>
      if bool_decide (a = b) then strip_prefix pre' s' else None
  | String _ _, "" => None
  end.

(** [s[len(s)-1]] *)
Fixpoint last (s : string) : option ascii :=
  match s with
  | "" => None
  | String c "" => Some c
  | String _ s' => last s'
  end.



End Str.

(** ** [path/filepath]

    [Clean] is Go's lexical path normaliser.  The Go source walks the bytes
    of the path with a read index and a write buffer; here the same
    procedure is phrased on path elements: the path is cut at separators,
    and each element is either skipped (empty, or [.]), cancels the element
    written before it ([..]), or is written out.  The buffer position
    [dotdot] of the Go source ("where [..] must stop") is the boundary
    between the leading [..] elements already written and the ordinary
    elements after them, so "can backtrack" ([out.w > dotdot]) holds exactly
    when the element written last is an ordinary one. *)

Module filepath.

Section Generic.
(** [os.IsPathSeparator], [filepath.Separator] and [volumeNameLen]
    are what distinguishes the platforms. *)
Variable IsPathSeparator : ascii -> bool.
Variable Separator : ascii.
Variable volumeNameLen : string -> nat.

(** The path cut at every separator: ["a//b/"] gives [a], [], [b], []. *)
Fixpoint elements (path : string) : list string :=
  match path with
  | "" => [""]
  | String c rest =>
      if IsPathSeparator c then "" :: elements rest
      else match elements rest with
           | e :: es => String c e :: es
           | [] => [String c ""]
           end
  end.

(** One turn of the loop of [Clean]: [out] holds the elements written
    so far, the one written last first. *)
Definition clean_step (rooted : bool) (out : list string) (e : string)
  : list string :=
  if bool_decide (e = "") then out            (* empty path element *)
  else if bool_decide (e = ".") then out      (* . element *)
  else if bool_decide (e = "..") then         (* .. element *)
    match out with
    | top :: below =>
        if bool_decide (top = "..")
        then (if rooted then out else ".." :: out)
        else below                            (* can backtrack *)
    | [] => if rooted then out else [".."]
    end
  else e :: out.                              (* real path element *)

Definition rooted (path : string) : bool :=
  match path with
  | String c _ => IsPathSeparator c
  | "" => false
  end.

(** [Clean] on a path without volume name. *)
Definition clean_rel (path : string) : string :=
  let r := rooted path in
  let out := foldl (clean_step r) [] (elements path) in
  let body := Str.join (String Separator "") (reverse out) in
  if r then String Separator body
  else if Str.is_empty body then "." else body.

Fixpoint take_str (n : nat) (s : string) : string :=
  match n, s with
  | S n', String c s' => String c (take_str n' s')
  | _, _ => ""
  end.

Fixpoint drop_str (n : nat) (s : string) : string :=
  match n, s with
  | S n', String _ s' => drop_str n' s'
  | _, _ => s
  end.

(** [filepath.VolumeName] *)
Definition VolumeName (path : string) : string :=
  take_str (volumeNameLen path) path.

(** [filepath.Clean] *)
Definition Clean (path : string) : string :=
  let vol := VolumeName path in
  let rest := drop_str (volumeNameLen path) path in
  if Str.is_empty rest then path +:+ "."
  else vol +:+ clean_rel rest.

(** The path up to and including its last separator
    ([path[:i+1]] in [Dir]). *)
Fixpoint upto_last_sep (path : string) : string :=
  match path with
  | "" => ""
  | String c rest =>
      let r := upto_last_sep rest in
      if Str.is_empty r
      then (if IsPathSeparator c then String c "" else "")
      else String c r
  end.

(** [filepath.Dir] *)
Definition Dir (path : string) : string :=
  let vol := VolumeName path in
  let rest := drop_str (volumeNameLen path) path in
  let dir := Clean (upto_last_sep rest) in
  if bool_decide (dir = ".") && (2 <? String.length vol)%nat then vol
  else vol +:+ dir.

(** [filepath.Join] as the Unix and Plan 9 ports define it: the
    elements from the first non-empty one on, joined and cleaned. *)
Fixpoint Join (elem : list string) : string :=
  match elem with
  | [] => ""
  | e :: rest =>
      if Str.is_empty e then Join rest
      else Clean (Str.join (String Separator "") elem)
  end.

(** An element with no separator in it. *)
Fixpoint sep_free (e : string) : bool :=
  match e with
  | "" => true
  | String c rest => negb (IsPathSeparator c) && sep_free rest
  end.

(** An ordinary path element: a name that is neither empty, nor [.], nor
    [..], and holds no separator. *)
Definition plain (e : string) : bool :=
  negb (bool_decide (e = "")) && negb (bool_decide (e = "."))
  && negb (bool_decide (e = "..")) && sep_free e.

End Generic.

(** *** Unix (linux, darwin) *)
Module unix.
Definition Separator : ascii := "/"%char.
Definition IsPathSeparator (c : ascii) : bool := bool_decide (c = "/"%char).
Definition volumeNameLen (_ : string) : nat := 0%nat.
Definition Clean := Clean IsPathSeparator Separator volumeNameLen.
Definition Join := Join IsPathSeparator Separator volumeNameLen.
Definition Dir := Dir IsPathSeparator Separator volumeNameLen.
(** [IsAbs]: [strings.HasPrefix(path, "/")] *)
Definition IsAbs (path : string) : bool := rooted IsPathSeparator path.
Definition plain := plain IsPathSeparator.
(** The absolute path with the given elements: [/a/b/c]. *)
Definition absolute (elems : list string) : string :=
  String Separator (Str.join (String Separator "") elems).
End unix.

(** *** Windows, for paths on a drive

    Only drive letters ([C:]) are recognised as volume names here; UNC
    volumes ([\\host\share]) are read as rooted paths.  The properties
    below that concern Windows hold for any [Join], this one serves to
    run them. *)
Module windows.
Definition Separator : ascii := "\"%char.
Definition IsPathSeparator (c : ascii) : bool :=
  bool_decide (c = "\"%char) || bool_decide (c = "/"%char).
Definition is_letter (c : ascii) : bool :=
  let n := N_of_ascii c in
  ((97 <=? n) && (n <=? 122) || (65 <=? n) && (n <=? 90))%N.
Definition volumeNameLen (path : string) : nat :=
  match path with
  | String c (String ":" _) => if is_letter c then 2%nat else 0%nat
  | _ => 0%nat
  end.
Definition Clean := Clean IsPathSeparator Separator volumeNameLen.
Definition Dir := Dir IsPathSeparator Separator volumeNameLen.
(** [joinNonEmpty]: a first element that is a bare drive letter is
    glued to what follows, without a separator. *)
Fixpoint skip_empty (elem : list string) : list string :=
  match elem with
  | e :: rest => if Str.is_empty e then skip_empty rest else elem
  | [] => []
  end.
Definition joinNonEmpty (elem : list string) : string :=
  match elem with
  | String c (String ":" "") as e0 :: rest =>
      Clean (e0 +:+ Str.join (String Separator "") (skip_empty rest))
  | _ => Clean (Str.join (String Separator "") elem)
  end.
Definition Join (elem : list string) : string :=
  match skip_empty elem with
  | [] => ""
  | elem' => joinNonEmpty elem'
  end.
Definition IsAbs (path : string) : bool :=
  match volumeNameLen path with
  | O => false
  | l => rooted IsPathSeparator (drop_str l path)
  end.
End windows.

End filepath.

(** ** Values of the Go program *)

(** Go's [error] values, as far as the plugin makes or passes them on. *)
Inductive error : Type :=
| errors_New (text : string)                 (* errors.New(text) *)
| fmt_Errorf (format : string) (err : error) (* fmt.Errorf(format, err), format ending in %w *)
| PathError (Op Path Err : string)           (* &fs.PathError{Op, Path, Err} *)
| foreign_error (text : string).             (* an error of the OS or of the driver *)

(** A [*sql.DB] other than [nil]: which connection pool it is, and the
    data source name it was opened with. *)
Record sql_DB : Type := { db_id : nat; db_dsn : string }.

(** A [*application.App] other than [nil]. *)
Record App : Type := { app_id : nat }.

(** An argument of [Logger.Info]. *)
Inductive any : Type :=
| any_string (s : string)
| any_int (n : Z).

#[global] Instance error_eq_dec : EqDecision error.
Proof. solve_decision. Defined.
#[global] Instance sql_DB_eq_dec : EqDecision sql_DB.
Proof. solve_decision. Defined.
#[global] Instance App_eq_dec : EqDecision App.
Proof. solve_decision. Defined.
#[global] Instance any_eq_dec : EqDecision any.
Proof. solve_decision. Defined.

(** [type Config struct].  Pointers are [option]s, [None] being [nil].
    The two [int] fields are only compared with zero and passed on, never
    computed with, so they are integers without a wrap-around. *)
Record Config : Type := {
  DbName : string;
  InMemory : bool;
  MacDir : string;
  WindowsDir : string;
  LinuxDir : string;
  DeleteOnShutdown : bool;
  DeleteDir : bool;
  CacheShared : bool;
  MaxOpenConnections : Z;
  MaxIdleConnections : Z;
  DB : option sql_DB;
  savedPath : string;
}.

(** [type Sqlite struct].  [config] stands for the struct the pointer of
    [NewPlugin] points to. *)
Record Sqlite : Type := {
  config : Config;
  app : option App;
}.

(** [NewPlugin] *)
Definition NewPlugin (c : Config) : Sqlite := {| config := c; app := None |}.

Definition set_DB (db : option sql_DB) (c : Config) : Config :=
  {| DbName := DbName c; InMemory := InMemory c; MacDir := MacDir c;
     WindowsDir := WindowsDir c; LinuxDir := LinuxDir c;
     DeleteOnShutdown := DeleteOnShutdown c; DeleteDir := DeleteDir c;
     CacheShared := CacheShared c;
     MaxOpenConnections := MaxOpenConnections c;
     MaxIdleConnections := MaxIdleConnections c;
     DB := db; savedPath := savedPath c |}.

Definition set_savedPath (path : string) (c : Config) : Config :=
  {| DbName := DbName c; InMemory := InMemory c; MacDir := MacDir c;
     WindowsDir := WindowsDir c; LinuxDir := LinuxDir c;
     DeleteOnShutdown := DeleteOnShutdown c; DeleteDir := DeleteDir c;
     CacheShared := CacheShared c;
     MaxOpenConnections := MaxOpenConnections c;
     MaxIdleConnections := MaxIdleConnections c;
     DB := DB c; savedPath := path |}.

(** ** The world outside the plugin *)

(** What is fixed when the program is built: [runtime.GOOS] and the
    [path/filepath] of that platform. *)
Record Platform : Type := {
  GOOS : string;
  IsPathSeparator : ascii -> bool;
  filepath_Clean : string -> string;
  filepath_Join : list string -> string;
  filepath_Dir : string -> string;
  filepath_IsAbs : string -> bool;
}.

Definition linux : Platform :=
  {| GOOS := "linux";
     IsPathSeparator := filepath.unix.IsPathSeparator;
     filepath_Clean := filepath.unix.Clean;
     filepath_Join := filepath.unix.Join;
     filepath_Dir := filepath.unix.Dir;
     filepath_IsAbs := filepath.unix.IsAbs |}.

Definition darwin : Platform :=
  {| GOOS := "darwin";
     IsPathSeparator := filepath.unix.IsPathSeparator;
     filepath_Clean := filepath.unix.Clean;
     filepath_Join := filepath.unix.Join;
     filepath_Dir := filepath.unix.Dir;
     filepath_IsAbs := filepath.unix.IsAbs |}.

Definition windows : Platform :=
  {| GOOS := "windows";
     IsPathSeparator := filepath.windows.IsPathSeparator;
     filepath_Clean := filepath.windows.Clean;
     filepath_Join := filepath.windows.Join;
     filepath_Dir := filepath.windows.Dir;
     filepath_IsAbs := filepath.windows.IsAbs |}.

Definition freebsd : Platform :=
  {| GOOS := "freebsd";
     IsPathSeparator := filepath.unix.IsPathSeparator;
     filepath_Clean := filepath.unix.Clean;
     filepath_Join := filepath.unix.Join;
     filepath_Dir := filepath.unix.Dir;
     filepath_IsAbs := filepath.unix.IsAbs |}.

(** What the plugin does to the world, in the order it does it. *)
Inductive Event : Type :=
| EvMkdirAll (path : string) (perm : N)
| EvOpen (driverName dataSourceName : string)
| EvSetMaxIdleConns (db : sql_DB) (n : Z)
| EvSetMaxOpenConns (db : sql_DB) (n : Z)
| EvPing (db : sql_DB)
| EvRemoveAll (path : string)
| EvLogInfo (msg : string) (args : list any).

#[global] Instance Event_eq_dec : EqDecision Event.
Proof. solve_decision. Defined.

(** The world: the process environment, the file system (the absolute
    paths that exist, files and directories alike), the host application,
    and how the operating system and the driver answer.  The four [_fault]
    fields say which calls fail and with what; every behaviour of the real
    system is one choice of them. *)
Record World : Type := {
  platform : Platform;
  environ : gmap string string;
  cwd : string;
  files : gset string;
  globalApplication : option App;
  mkdir_fault : string -> option error;
  open_fault : string -> option error;
  ping_fault : string -> option error;
  remove_fault : string -> option error;
  opened : nat;                     (* connection pools made so far *)
  trace : list Event;
}.

Definition emit (ev : Event) (w : World) : World :=
  {| platform := platform w; environ := environ w; cwd := cwd w;
     files := files w; globalApplication := globalApplication w;
     mkdir_fault := mkdir_fault w; open_fault := open_fault w;
     ping_fault := ping_fault w; remove_fault := remove_fault w;
     opened := opened w; trace := trace w ++ [ev] |}.

Definition set_files (fs : gset string) (w : World) : World :=
  {| platform := platform w; environ := environ w; cwd := cwd w;
     files := fs; globalApplication := globalApplication w;
     mkdir_fault := mkdir_fault w; open_fault := open_fault w;
     ping_fault := ping_fault w; remove_fault := remove_fault w;
     opened := opened w; trace := trace w |}.

Definition set_opened (n : nat) (w : World) : World :=
  {| platform := platform w; environ := environ w; cwd := cwd w;
     files := files w; globalApplication := globalApplication w;
     mkdir_fault := mkdir_fault w; open_fault := open_fault w;
     ping_fault := ping_fault w; remove_fault := remove_fault w;
     opened := n; trace := trace w |}.

(** *** The file system *)

(** The absolute path a path names in world [w]. *)
Definition abs_path (w : World) (path : string) : string :=
  if filepath_IsAbs (platform w) path then filepath_Clean (platform w) path
  else filepath_Join (platform w) [cwd w; path].

(** [path] and the directories above it, [path] first. *)
Fixpoint with_parents (pf : Platform) (fuel : nat) (path : string) : list string :=
  match fuel with
  | O => [path]
  | S fuel' =>
      let up := filepath_Dir pf path in
      if bool_decide (up = path) then [path]
      else path :: with_parents pf fuel' up
  end.

(** [q] is [root] or lies below it: [root] is a prefix of [q] that ends
    where an element of [q] ends. *)
Definition below (pf : Platform) (root q : string) : bool :=
  match Str.strip_prefix root q with
  | None => false
  | Some "" => true
  | Some (String c _) =>
      IsPathSeparator pf c
      || match Str.last root with
         | Some r => IsPathSeparator pf r
         | None => false
         end
  end.

(** The file system after [path] and all below it is gone. *)
Definition remove_tree (w : World) (path : string) : gset string :=
  let root := abs_path w path in
  filter (fun q => below (platform w) root q = false) (files w).

(** [endsWithDot] of package [os] *)
Definition endsWithDot (pf : Platform) (path : string) : bool :=
  bool_decide (path = ".") || Str.ends_with2 (IsPathSeparator pf) "."%char path.

(** ** The [Go] monad: the plugin and the world threaded through, and panics *)

Record State : Type := { self : Sqlite; world : World }.

Inductive Res (A : Type) : Type :=
| Ret (a : A)
| Panic (msg : string).
Arguments Ret {A} a.
Arguments Panic {A} msg.

Definition Go (A : Type) : Type := State -> Res A * State.

#[global] Instance Go_ret : MRet Go := fun A a s => (Ret a, s).
#[global] Instance Go_bind : MBind Go := fun A B f m s =>
  match m s with
  | (Ret a, s') => f a s'
  | (Panic msg, s') => (Panic msg, s')
  end.

Definition with_world (f : World -> World) (s : State) : State :=
  {| self := self s; world := f (world s) |}.

Definition with_config (f : Config -> Config) (s : State) : State :=
  {| self := {| config := f (config (self s)); app := app (self s) |};
     world := world s |}.

Definition with_app (a : option App) (s : State) : State :=
  {| self := {| config := config (self s); app := a |}; world := world s |}.

(** Reading a field of [p.config]. *)
Definition rd {A} (field : Config -> A) : Go A :=
  fun s => (Ret (field (config (self s))), s).

(** Writing through [p.config]. *)
Definition wr (f : Config -> Config) : Go unit :=
  fun s => (Ret tt, with_config f s).

(** [p.app = a] *)
Definition set_app (a : option App) : Go unit :=
  fun s => (Ret tt, with_app a s).

(** [runtime.GOOS] and the platform's [path/filepath]. *)
Definition runtime : Go Platform :=
  fun s => (Ret (platform (world s)), s).

(** [application.Get()] *)
Definition application_Get : Go (option App) :=
  fun s => (Ret (globalApplication (world s)), s).

(** [os.Getenv]: the value, or the empty string when the variable is unset *)
Definition os_Getenv (key : string) : Go string :=
  fun s => (Ret (default "" (environ (world s) !! key)), s).

(** [os.MkdirAll]: makes the directory and the missing ones above it. *)
Definition os_MkdirAll (path : string) (perm : N) : Go (option error) :=
  fun s =>
    let w := emit (EvMkdirAll path perm) (world s) in
    match mkdir_fault w path with
    | Some e => (Ret (Some e), with_world (fun _ => w) s)
    | None =>
        let dirs := with_parents (platform w) (String.length (abs_path w path))
                                 (abs_path w path) in
        (Ret None, with_world (fun _ => set_files (files w ∪ list_to_set dirs) w) s)
    end.

(** [os.RemoveAll]: nothing to do for the empty path, refuses a path that
    ends in a dot, and otherwise removes the path and all below it. *)
Definition os_RemoveAll (path : string) : Go (option error) :=
  fun s =>
    let w := emit (EvRemoveAll path) (world s) in
    if Str.is_empty path then (Ret None, with_world (fun _ => w) s)
    else if endsWithDot (platform w) path
    then (Ret (Some (PathError "RemoveAll" path "invalid argument")),
          with_world (fun _ => w) s)
    else match remove_fault w path with
         | Some e => (Ret (Some e), with_world (fun _ => w) s)
         | None =>
             (Ret None, with_world (fun _ => set_files (remove_tree w path) w) s)
         end.

(** [sql.Open]: a fresh pool for the data source name; no connection is
    made yet. *)
Definition sql_Open (driverName dataSourceName : string)
  : Go (option sql_DB * option error) :=
  fun s =>
    let w := emit (EvOpen driverName dataSourceName) (world s) in
    match open_fault w dataSourceName with
    | Some e => (Ret (None, Some e), with_world (fun _ => w) s)
    | None =>
        let db := {| db_id := opened w; db_dsn := dataSourceName |} in
        (Ret (Some db, None), with_world (fun _ => set_opened (S (opened w)) w) s)
    end.

(** A method called through a [nil] pointer. *)
Definition nil_dereference {A} : Go A :=
  fun s => (Panic "invalid memory address or nil pointer dereference", s).

(** [db.SetMaxIdleConns(n)] *)
Definition SetMaxIdleConns (db : option sql_DB) (n : Z) : Go unit :=
  match db with
  | Some d => fun s => (Ret tt, with_world (emit (EvSetMaxIdleConns d n)) s)
  | None => nil_dereference
  end.

(** [db.SetMaxOpenConns(n)] *)
Definition SetMaxOpenConns (db : option sql_DB) (n : Z) : Go unit :=
  match db with
  | Some d => fun s => (Ret tt, with_world (emit (EvSetMaxOpenConns d n)) s)
  | None => nil_dereference
  end.

(** [db.Ping()] *)
Definition Ping (db : option sql_DB) : Go (option error) :=
  match db with
  | Some d => fun s =>
      (Ret (ping_fault (world s) (db_dsn d)), with_world (emit (EvPing d)) s)
  | None => nil_dereference
  end.

(** [sqls.app.Logger.Info(msg, args...)] *)
Definition Logger_Info (msg : string) (args : list any) : Go unit :=
  fun s =>
    match app (self s) with
    | Some _ => (Ret tt, with_world (emit (EvLogInfo msg args)) s)
    | None => nil_dereference s
    end.

(** ** The plugin's methods ([src/plugin.go]) *)

(** [func (p *Sqlite) Name() string] *)
Definition Name : Go string := mret "github.com/atterpac/wails-plugin-sqlite".

(** [func (sqls Sqlite) GetDB()], returning a [*sql.DB] and an [error] *)
Definition GetDB : Go (option sql_DB * option error) :=
  db ← rd DB;
  mret (db, None).

(** [func (sqls *Sqlite) SetDB(newDB *sql.DB) error] *)
Definition SetDB (newDB : option sql_DB) : Go (option error) :=
  match newDB with
  | Some _ =>
      wr (set_DB newDB);;
      mret None
  | None =>
      mret (Some (errors_New "Attempted to set DB but provided pointer was nil"))
  end.

(** [func (sqls *Sqlite) createMemDB() error] *)
Definition createMemDB : Go (option error) :=
  '(db, err) ← sql_Open "sqlite3" ":memory:";
  match err with
  | Some e =>
      mret (Some (fmt_Errorf "failed to create in-memory database: %w" e))
  | None =>
      wr (set_DB db);;
      mret None
  end.

(** The [switch runtime.GOOS] that opens [createFileDB]: the directory, or
    the error the [default] case returns. *)
Definition switch_GOOS : Go (string + error) :=
  rt ← runtime;
  if bool_decide (GOOS rt = "windows") then
    dir ← rd WindowsDir;
    if negb (bool_decide (dir = "")) then
      mret (inl dir)
    else
      appdata ← os_Getenv "APPDATA";
      dir ← rd WindowsDir;
      mret (inl (filepath_Join rt [appdata; dir]))
  else if bool_decide (GOOS rt = "darwin") then
    dir ← rd MacDir;
    if negb (bool_decide (dir = "")) then
      mret (inl dir)
    else
      home ← os_Getenv "HOME";
      name ← rd DbName;
      mret (inl (filepath_Join rt
                   [home; "Library"; "Application Support"; name; name +:+ ".db"]))
  else if bool_decide (GOOS rt = "linux") then
    dir ← rd LinuxDir;
    if negb (bool_decide (dir = "")) then
      mret (inl dir)
    else
      home ← os_Getenv "HOME";
      name ← rd DbName;
      mret (inl (filepath_Join rt [home; ".config"; name]))
  else
    mret (inr (errors_New
                 "operating system not supported, please use Windows/macOS/Linux")).

(** The mode [0755] *)
Definition perm_0755 : N := 493.

(** [fileName] of [createFileDB] *)
Definition fileName_of (name : string) (shared : bool) : string :=
  let fileName := name +:+ ".db" in
  if shared then fileName +:+ "?cache=shared" else fileName.

(** [func (sqls *Sqlite) createFileDB() error] *)
Definition createFileDB : Go (option error) :=
  rt ← runtime;
  resolved ← switch_GOOS;
  match resolved with
  | inr e => mret (Some e)
  | inl dbPath =>
      name ← rd DbName;
      shared ← rd CacheShared;
      let fileName := fileName_of name shared in
      (* Create directory if it doesn't exist *)
      err ← os_MkdirAll dbPath perm_0755;
      match err with
      | Some e => mret (Some (fmt_Errorf "failed to create directory: %w" e))
      | None =>
          (* Create sqlite DB with name inside of Dir *)
          let dbPath := filepath_Join rt [dbPath; fileName] in
          wr (set_savedPath fileName);;
          '(db, err) ← sql_Open "sqlite3" dbPath;
          match err with
          | Some e => mret (Some (fmt_Errorf "failed to create database: %w" e))
          | None =>
              idle ← rd MaxIdleConnections;
              open ← rd MaxOpenConnections;
              (* Set connection options *)
              let idle := if bool_decide (idle = 0) then 2 else idle in
              let open := if bool_decide (open = 0) then 1 else open in
              SetMaxIdleConns db idle;;
              SetMaxOpenConns db open;;
              err ← Ping db;
              match err with
              | Some e => mret (Some (fmt_Errorf "failed to ping database: %w" e))
              | None =>
                  Logger_Info "Sqlite Initialized"
                    [any_string "path"; any_string dbPath;
                     any_string "idle"; any_int idle;
                     any_string "open"; any_int open];;
                  wr (set_DB db);;
                  mret None
              end
          end
      end
  end.

(** [func (p *Sqlite) Init() error] *)
Definition Init : Go (option error) :=
  a ← application_Get;
  set_app a;;
  mem ← rd InMemory;
  if mem : bool then createMemDB
  else
    name ← rd DbName;
    if bool_decide (name = "") then
      mret (Some (errors_New
        "Sqlite requires a DbName to be set or configured for In Memory database"))
    else createFileDB.

(** [func (p *Sqlite) Shutdown() error] *)
Definition Shutdown : Go (option error) :=
  rt ← runtime;
  del ← rd DeleteOnShutdown;
  if del : bool then
    (* Delete Database *)
    mem ← rd InMemory;
    if mem : bool then mret None
    else
      deldir ← rd DeleteDir;
      err ← (if deldir : bool then
               path ← rd savedPath;
               os_RemoveAll (filepath_Dir rt path)
             else
               path ← rd savedPath;
               os_RemoveAll path);
      match err with
      | Some e => mret (Some (fmt_Errorf "failed to delete database: %w" e))
      | None => mret None
      end
  else mret None.

(** The names the specification gives to the errors of the plugin. *)
Definition ConfigurationError : error :=
  errors_New "Sqlite requires a DbName to be set or configured for In Memory database".
Definition UnsupportedPlatformError : error :=
  errors_New "operating system not supported, please use Windows/macOS/Linux".
Definition DirectoryError (cause : error) : error :=
  fmt_Errorf "failed to create directory: %w" cause.
Definition ConnectionError (in_memory : bool) (cause : error) : error :=
  if in_memory then fmt_Errorf "failed to create in-memory database: %w" cause
  else fmt_Errorf "failed to create database: %w" cause.
Definition ConnectivityError (cause : error) : error :=
  fmt_Errorf "failed to ping database: %w" cause.
Definition DeletionError (cause : error) : error :=
  fmt_Errorf "failed to delete database: %w" cause.
Definition NilHandleError : error :=
  errors_New "Attempted to set DB but provided pointer was nil".

(** ** Observing a run *)

(** The events a run from [s] to [s'] added to the trace. *)
Definition emitted (s s' : State) (evs : list Event) : Prop :=
  trace (world s') = trace (world s) ++ evs.

(** What [os.Getenv] answers in [s]. *)
Definition getenv (s : State) (key : string) : string :=
  default "" (environ (world s) !! key).

(** What the [switch runtime.GOOS] yields in [s]. *)
Definition resolved (s : State) : Res (string + error) := fst (switch_GOOS s).

(** ** The exits of [createMemDB] and [createFileDB] *)

Section Exits.
Variable s : State.

Let cfg := config (self s).
Let w := world s.

(** The values [createFileDB] computes on its way. *)
Definition fileName : string := fileName_of (DbName cfg) (CacheShared cfg).
Definition dataSourceName (dir : string) : string :=
  filepath_Join (platform w) [dir; fileName].
Definition pool (dir : string) : sql_DB :=
  {| db_id := opened w; db_dsn := dataSourceName dir |}.
Definition idle : Z :=
  if bool_decide (MaxIdleConnections cfg = 0) then 2 else MaxIdleConnections cfg.
Definition open : Z :=
  if bool_decide (MaxOpenConnections cfg = 0) then 1 else MaxOpenConnections cfg.
Definition log_line (dir : string) : Event :=
  EvLogInfo "Sqlite Initialized"
    [any_string "path"; any_string (dataSourceName dir);
     any_string "idle"; any_int idle; any_string "open"; any_int open].

(** Every way [createFileDB] can end when started in [s]: what it
    returns, the configuration it leaves, and the events it has added,
    one constructor per [return] of the source (and one for the panic of
    a [nil] [sqls.app]). *)
Inductive createFileDB_exit : Res (option error) -> Config -> list Event -> Prop :=
| exit_unsupported e :
    resolved s = Ret (inr e) ->
    createFileDB_exit (Ret (Some e)) cfg []
| exit_mkdir dir e :
    resolved s = Ret (inl dir) ->
    mkdir_fault w dir = Some e ->
    createFileDB_exit (Ret (Some (DirectoryError e))) cfg
      [EvMkdirAll dir perm_0755]
| exit_open dir e :
    resolved s = Ret (inl dir) ->
    mkdir_fault w dir = None ->
    open_fault w (dataSourceName dir) = Some e ->
    createFileDB_exit (Ret (Some (ConnectionError false e)))
      (set_savedPath fileName cfg)
      [EvMkdirAll dir perm_0755; EvOpen "sqlite3" (dataSourceName dir)]
| exit_ping dir e :
    resolved s = Ret (inl dir) ->
    mkdir_fault w dir = None ->
    open_fault w (dataSourceName dir) = None ->
    ping_fault w (dataSourceName dir) = Some e ->
    createFileDB_exit (Ret (Some (ConnectivityError e)))
      (set_savedPath fileName cfg)
      [EvMkdirAll dir perm_0755; EvOpen "sqlite3" (dataSourceName dir);
       EvSetMaxIdleConns (pool dir) idle; EvSetMaxOpenConns (pool dir) open;
       EvPing (pool dir)]
| exit_nil_app dir :
    resolved s = Ret (inl dir) ->
    mkdir_fault w dir = None ->
    open_fault w (dataSourceName dir) = None ->
    ping_fault w (dataSourceName dir) = None ->
    app (self s) = None ->
    createFileDB_exit
      (Panic "invalid memory address or nil pointer dereference")
      (set_savedPath fileName cfg)
      [EvMkdirAll dir perm_0755; EvOpen "sqlite3" (dataSourceName dir);
       EvSetMaxIdleConns (pool dir) idle; EvSetMaxOpenConns (pool dir) open;
       EvPing (pool dir)]
| exit_ready dir a :
    resolved s = Ret (inl dir) ->
    mkdir_fault w dir = None ->
    open_fault w (dataSourceName dir) = None ->
    ping_fault w (dataSourceName dir) = None ->
    app (self s) = Some a ->
    createFileDB_exit (Ret None)
      (set_DB (Some (pool dir)) (set_savedPath fileName cfg))
      [EvMkdirAll dir perm_0755; EvOpen "sqlite3" (dataSourceName dir);
       EvSetMaxIdleConns (pool dir) idle; EvSetMaxOpenConns (pool dir) open;
       EvPing (pool dir); log_line dir].

(** The two ways [createMemDB] can end. *)
Inductive createMemDB_exit : Res (option error) -> Config -> list Event -> Prop :=
| exit_mem_open e :
    open_fault w ":memory:" = Some e ->
    createMemDB_exit (Ret (Some (ConnectionError true e))) cfg
      [EvOpen "sqlite3" ":memory:"]
| exit_mem_ready :
    open_fault w ":memory:" = None ->
    createMemDB_exit (Ret None)
      (set_DB (Some {| db_id := opened w; db_dsn := ":memory:" |}) cfg)
      [EvOpen "sqlite3" ":memory:"].

End Exits.

(** ** Worlds and configurations to run the plugin in *)

Module Ex.

(** No call fails. *)
Definition sound : string -> option error := fun _ => None.

(** The driver cannot reach any database. *)
Definition unreachable : string -> option error :=
  fun _ => Some (foreign_error "unable to open database file").

(** A Linux machine: the user's home, a working directory with a file
    [app.db] of its own, and the database of an earlier run with a file
    next to it. *)
Definition linux_world : World :=
  {| platform := linux;
     environ := {[ "HOME" := "/home/u" ]};
     cwd := "/work";
     files := list_to_set
       ["/"; "/home"; "/home/u"; "/home/u/.config"; "/home/u/.config/app";
        "/home/u/.config/app/app.db"; "/home/u/.config/app/notes.txt";
        "/work"; "/work/app.db"; "/work/main.go"];
     globalApplication := Some {| app_id := 1 |};
     mkdir_fault := sound; open_fault := sound;
     ping_fault := sound; remove_fault := sound;
     opened := 0; trace := [] |}.

(** The same machine with a database that does not answer. *)
Definition linux_world_ping_down : World :=
  {| platform := linux;
     environ := environ linux_world; cwd := cwd linux_world;
     files := files linux_world;
     globalApplication := globalApplication linux_world;
     mkdir_fault := sound; open_fault := sound;
     ping_fault := unreachable; remove_fault := sound;
     opened := 0; trace := [] |}.

(** A Windows machine. *)
Definition windows_world : World :=
  {| platform := windows;
     environ := {[ "APPDATA" := "C:\Users\u\AppData\Roaming" ]};
     cwd := "C:\work";
     files := list_to_set ["C:\"; "C:\work"];
     globalApplication := Some {| app_id := 1 |};
     mkdir_fault := sound; open_fault := sound;
     ping_fault := sound; remove_fault := sound;
     opened := 0; trace := [] |}.

(** A platform the plugin does not know. *)
Definition freebsd_world : World :=
  {| platform := freebsd;
     environ := environ linux_world; cwd := cwd linux_world;
     files := files linux_world;
     globalApplication := globalApplication linux_world;
     mkdir_fault := sound; open_fault := sound;
     ping_fault := sound; remove_fault := sound;
     opened := 0; trace := [] |}.

(** [&Config{DbName: name}] with the shutdown and cache options given. *)
Definition a_config (name : string) (memory delete deleteDir shared : bool)
  : Config :=
  {| DbName := name; InMemory := memory;
     MacDir := ""; WindowsDir := ""; LinuxDir := "";
     DeleteOnShutdown := delete; DeleteDir := deleteDir;
     CacheShared := shared;
     MaxOpenConnections := 0; MaxIdleConnections := 0;
     DB := None; savedPath := "" |}.

(** The plugin fresh from [NewPlugin], in a world. *)
Definition start (c : Config) (w : World) : State :=
  {| self := NewPlugin c; world := w |}.

(** The states the properties below are run from. *)
Definition nameless : State :=
  start (a_config "" false true true true) linux_world.
Definition in_memory : State :=
  start (a_config "app" true false false false) freebsd_world.
Definition ping_down : State :=
  start (a_config "app" false false false false) linux_world_ping_down.
Definition delete_file : State :=
  start (a_config "app" false true false false) linux_world.
Definition delete_dir : State :=
  start (a_config "app" false true true false) linux_world.
Definition shared_cache : State :=
  start (a_config "app" false false false true) linux_world.
Definition on_windows : State :=
  start (a_config "app" false false false false) windows_world.

(** The plugin after [Init], and after [Init] and [Shutdown]. *)
Definition ready (s : State) : State := snd (Init s).
Definition closed (s : State) : State := snd (Shutdown (ready s)).

End Ex.

(** ** [Execute] and [Query] *)

(** An argument as [database/sql] receives it: a plain value, or a Go
    slice [[]any] handed over as one value. *)
#[local] Set Warnings "-register-all".
Inductive value : Type :=
| value_of (a : any)
| value_slice (elems : list value).
#[local] Set Warnings "register-all".

(** A [sql.Result] and a [*sql.Rows] other than [nil]. *)
Record sql_Result : Type := { result_id : nat }.
Record sql_Rows : Type := { rows_id : nat }.

(** What [database/sql] answers to the calls the plugin passes on:
    [db.Exec(query, args...)], [result.RowsAffected()] and
    [db.Query(query, args...)], each with the list of arguments it is
    given. *)
Record Driver : Type := {
  DB_Exec : sql_DB -> string -> list value -> sql_Result + error;
  Result_RowsAffected : sql_Result -> Z + error;
  DB_Query : sql_DB -> string -> list value -> option sql_Rows * option error;
}.

(** [func (sqls Sqlite) Execute(cmd string, args ...any) (int64, error)].
    The call is [DB.Exec(cmd, args)], without [...]: the variadic
    parameter of [Exec] receives one argument, the slice [args]. *)
Definition Execute (d : Driver) (cmd : string) (args : list value)
  : Go (Z * option error) :=
  db ← rd DB;
  match db with
  | None => nil_dereference
  | Some h =>
      match DB_Exec d h cmd [value_slice args] with
      | inr err => mret (0, Some err)
      | inl result =>
          match Result_RowsAffected d result with
          | inr err => mret (0, Some err)
          | inl affected => mret (affected, None)
          end
      end
  end.

(** [func (sqls Sqlite) Query(query string, args ...any)], returning a
    [*sql.Rows] and an [error], with [DB.Query(query, args)] called the
    same way. *)
Definition Query (d : Driver) (query : string) (args : list value)
  : Go (option sql_Rows * option error) :=
  db ← rd DB;
  match db with
  | None => nil_dereference
  | Some h => mret (DB_Query d h query [value_slice args])
  end.

(** ** More worlds to run the plugin in *)

Module Run.

(** A Mac. *)
Definition darwin_world : World :=
  {| platform := darwin;
     environ := {[ "HOME" := "/Users/u" ]};
     cwd := "/work";
     files := list_to_set ["/"; "/Users"; "/Users/u"; "/work"];
     globalApplication := Some {| app_id := 1 |};
     mkdir_fault := Ex.sound; open_fault := Ex.sound;
     ping_fault := Ex.sound; remove_fault := Ex.sound;
     opened := 0; trace := [] |}.

(** The Linux machine of [Ex.linux_world] on which no directory can be
    made. *)
Definition linux_world_read_only : World :=
  {| platform := linux;
     environ := environ Ex.linux_world; cwd := cwd Ex.linux_world;
     files := files Ex.linux_world;
     globalApplication := globalApplication Ex.linux_world;
     mkdir_fault := fun _ => Some (foreign_error "read-only file system");
     open_fault := Ex.sound; ping_fault := Ex.sound; remove_fault := Ex.sound;
     opened := 0; trace := [] |}.

(** [&Config{DbName: name, LinuxDir: dir}] *)
Definition config_in (name dir : string) : Config :=
  {| DbName := name; InMemory := false;
     MacDir := ""; WindowsDir := ""; LinuxDir := dir;
     DeleteOnShutdown := false; DeleteDir := false;
     CacheShared := false;
     MaxOpenConnections := 0; MaxIdleConnections := 0;
     DB := None; savedPath := "" |}.

Definition on_darwin : State :=
  Ex.start (Ex.a_config "app" false false false false) darwin_world.
Definition on_freebsd : State :=
  Ex.start (Ex.a_config "app" false true false false) Ex.freebsd_world.
Definition overridden : State :=
  Ex.start (config_in "app" "/srv/db/") Ex.linux_world.
Definition read_only : State :=
  Ex.start (Ex.a_config "app" false true false false) linux_world_read_only.
Definition in_memory_deleting : State :=
  Ex.start (Ex.a_config "app" true true true false) Ex.linux_world.
Definition nested : State :=
  Ex.start (config_in "data/app" "") Ex.linux_world.

(** The Linux machine of [Ex.linux_world] without a host application. *)
Definition linux_world_no_host : World :=
  {| platform := linux;
     environ := environ Ex.linux_world; cwd := cwd Ex.linux_world;
     files := files Ex.linux_world;
     globalApplication := None;
     mkdir_fault := Ex.sound; open_fault := Ex.sound;
     ping_fault := Ex.sound; remove_fault := Ex.sound;
     opened := 0; trace := [] |}.
Definition no_host : State :=
  Ex.start (Ex.a_config "app" false false false false) linux_world_no_host.

(** A handle from elsewhere, for [SetDB]. *)
Definition foreign_pool : sql_DB := {| db_id := 7; db_dsn := "/tmp/other.db" |}.

(** A driver that follows [database/sql] in refusing an argument that is
    a slice, and otherwise reports one affected row and no rows read. *)
Definition is_slice (v : value) : bool :=
  match v with value_slice _ => true | value_of _ => false end.
Definition strict_driver : Driver :=
  {| DB_Exec := fun _ _ args =>
       if existsb is_slice args
       then inr (foreign_error "unsupported type []interface {}, a slice of interface")
       else inl {| result_id := 0 |};
     Result_RowsAffected := fun _ => inl 1;
     DB_Query := fun _ _ args =>
       if existsb is_slice args
       then (None, Some (foreign_error
               "unsupported type []interface {}, a slice of interface"))
       else (Some {| rows_id := 0 |}, None) |}.

(** A driver that takes whatever it is given and reports three rows. *)
Definition lenient_driver : Driver :=
  {| DB_Exec := fun _ _ _ => inl {| result_id := 0 |};
     Result_RowsAffected := fun _ => inl 3;
     DB_Query := fun _ _ _ => (Some {| rows_id := 0 |}, None) |}.

End Run.

(** * Properties *)

(** ** Strings and paths *)

Lemma Str_is_empty_true s : Str.is_empty s = true <-> s = "".
Proof. destruct s; simpl; split; congruence. Qed.

Lemma Str_is_empty_false s : Str.is_empty s = false <-> s <> "".
Proof. destruct s; simpl; split; congruence. Qed.

Lemma Str_app_empty_r (s : string) : s +:+ "" = s.
Proof.
  induction s as [|c s IH]; [reflexivity|].
  change (String c (s +:+ "") = String c s). by rewrite IH.
Qed.

Lemma Str_app_assoc (a b c : string) : (a +:+ b) +:+ c = a +:+ b +:+ c.
Proof.
  induction a as [|x a IH]; [reflexivity|].
  change (String x ((a +:+ b) +:+ c) = String x (a +:+ b +:+ c)).
  by rewrite IH.
Qed.

(** [Clean] on the table of Go's own tests ([path_test.go], [cleantests]). *)
Example Clean_cleantests :
  map filepath.unix.Clean
    ["abc"; "abc/def"; "a/b/c"; "."; ".."; "../.."; "../../abc"; "/abc"; "/";
     ""; "abc/"; "abc/def/"; "a/b/c/"; "./"; "../"; "../../"; "/abc/";
     "abc//def//ghi"; "//abc"; "///abc"; "//abc//"; "abc//";
     "abc/./def"; "/./abc/def"; "abc/.";
     "abc/def/ghi/../jkl"; "abc/def/../ghi/../jkl"; "abc/def/.."; "abc/def/../..";
     "/abc/def/../.."; "abc/def/../../.."; "/abc/def/../../..";
     "abc/def/../../../ghi/jkl/../../../mno"; "/../abc";
     "abc/./../def"; "abc//./../def"; "abc/../../././../def"]
  = ["abc"; "abc/def"; "a/b/c"; "."; ".."; "../.."; "../../abc"; "/abc"; "/";
     "."; "abc"; "abc/def"; "a/b/c"; "."; ".."; "../.."; "/abc";
     "abc/def/ghi"; "/abc"; "/abc"; "/abc"; "abc";
     "abc/def"; "/abc/def"; "abc";
     "abc/def/jkl"; "abc/jkl"; "abc"; ".";
     "/"; ".."; "/";
     "../../mno"; "/abc";
     "def"; "def"; "../../def"].
Proof. vm_compute. reflexivity. Qed.

(** [Join] and [Dir] on the tables of Go's own tests ([jointests], [dirtests]). *)
Example Join_jointests :
  map filepath.unix.Join
    [[]; [""]; ["/"]; ["a"]; ["a"; "b"]; ["a"; ""]; [""; "b"]; ["/"; "a"];
     ["/"; "a/b"]; ["/"; ""]; ["/a"; "b"]; ["a"; "/b"]; ["/a"; "/b"];
     ["a/"; "b"]; ["a/"; ""]; [""; ""]; ["/"; "a"; "b"]; ["//"; "a"]]
  = [""; ""; "/"; "a"; "a/b"; "a"; "b"; "/a";
     "/a/b"; "/"; "/a/b"; "a/b"; "/a/b";
     "a/b"; "a"; ""; "/a/b"; "/a"].
Proof. vm_compute. reflexivity. Qed.

Example Dir_dirtests :
  map filepath.unix.Dir
    [""; "."; "/."; "/"; "/foo"; "x/"; "abc"; "abc/def"; "a/b/.x";
     "a/b/c."; "a/b/c.x"; "////"]
  = ["."; "."; "/"; "/"; "/"; "x"; "."; "abc"; "a/b";
     "a/b"; "a/b"; "/"].
Proof. vm_compute. reflexivity. Qed.

Example windows_Join_examples :
  map filepath.windows.Join
    [["C:\Users\u\AppData\Roaming"; ""]; ["C:\a"; "b"]; ["C:"; "a"];
     ["C:\a\"; "..\b"]; [""; ""]; ["C:/a"; "b/c"]]
  = ["C:\Users\u\AppData\Roaming"; "C:\a\b"; "C:a";
     "C:\b"; ""; "C:\a\b\c"].
Proof. vm_compute. reflexivity. Qed.

(** ** Paths made of ordinary elements

    For an absolute path whose elements are ordinary names, [Clean] has
    nothing to do, and [Join] is concatenation with a slash. *)

Section Elements.
Variable IsSep : ascii -> bool.

Lemma elements_nonempty path : filepath.elements IsSep path <> [].
Proof.
  destruct path as [|c rest]; cbn; [done|].
  destruct (IsSep c); [done|]. by destruct (filepath.elements IsSep rest).
Qed.

Lemma elements_sep_free e :
  filepath.sep_free IsSep e = true -> filepath.elements IsSep e = [e].
Proof.
  induction e as [|c e IH]; cbn; [done|].
  intros [Hc He]%andb_true_iff. apply negb_true_iff in Hc. rewrite Hc.
  by rewrite (IH He).
Qed.

(** Cutting a path with a separator in the middle cuts both sides. *)
Lemma elements_app_sep a c b :
  IsSep c = true ->
  filepath.elements IsSep (a +:+ String c b)
  = filepath.elements IsSep a ++ filepath.elements IsSep b.
Proof.
  intros Hc. induction a as [|x a IH].
  - change ("" +:+ String c b) with (String c b). cbn. by rewrite Hc.
  - change (String x a +:+ String c b) with (String x (a +:+ String c b)).
    cbn. rewrite IH. destruct (IsSep x); [done|].
    pose proof (elements_nonempty a) as Hne.
    by destruct (filepath.elements IsSep a).
Qed.

Lemma elements_join sep elems :
  IsSep sep = true ->
  elems <> [] ->
  Forall (fun e => filepath.sep_free IsSep e = true) elems ->
  filepath.elements IsSep (Str.join (String sep "") elems) = elems.
Proof.
  intros Hsep Hne Hall. induction Hall as [|e rest He Hrest IH]; [done|].
  destruct rest as [|e' rest'].
  - cbn. by apply elements_sep_free.
  - change (Str.join (String sep "") (e :: e' :: rest'))
      with (e +:+ String sep (Str.join (String sep "") (e' :: rest'))).
    rewrite elements_app_sep by done.
    rewrite elements_sep_free by done. by rewrite IH.
Qed.

(** Ordinary elements are written out one after the other. *)
Lemma clean_step_plain rooted out e :
  filepath.plain IsSep e = true ->
  filepath.clean_step rooted out e = e :: out.
Proof.
  unfold filepath.plain, filepath.clean_step.
  intros [[[H1 H2]%andb_true_iff H3]%andb_true_iff _]%andb_true_iff.
  apply negb_true_iff in H1, H2, H3. by rewrite H1, H2, H3.
Qed.

Lemma foldl_clean_step_plain rooted elems out :
  Forall (fun e => filepath.plain IsSep e = true) elems ->
  foldl (filepath.clean_step rooted) out elems = reverse elems ++ out.
Proof.
  intros Hall. revert out.
  induction Hall as [|e rest He Hrest IH]; intros out; [done|].
  rewrite reverse_cons. cbn [foldl]. rewrite clean_step_plain by done.
  rewrite IH. by rewrite <- app_assoc.
Qed.

Lemma plain_sep_free e :
  filepath.plain IsSep e = true -> filepath.sep_free IsSep e = true.
Proof. unfold filepath.plain. by intros [_ ?]%andb_true_iff. Qed.

End Elements.

Lemma Str_join_app sep (a b : list string) :
  a <> [] -> b <> [] ->
  Str.join sep (a ++ b) = Str.join sep a +:+ sep +:+ Str.join sep b.
Proof.
  intros Ha Hb. induction a as [|x a IH]; [done|].
  destruct a as [|y a'].
  - destruct b; [done|]. reflexivity.
  - change (Str.join sep ((x :: y :: a') ++ b))
      with (x +:+ sep +:+ Str.join sep ((y :: a') ++ b)).
    rewrite IH by done.
    change (Str.join sep (x :: y :: a'))
      with (x +:+ sep +:+ Str.join sep (y :: a')).
    by rewrite !Str_app_assoc.
Qed.

(** [Clean] leaves an absolute path of ordinary elements as it is. *)
Lemma unix_Clean_absolute elems :
  Forall (fun e => filepath.unix.plain e = true) elems ->
  filepath.unix.Clean (filepath.unix.absolute elems) = filepath.unix.absolute elems.
Proof.
  intros Hall. unfold filepath.unix.Clean, filepath.Clean, filepath.unix.absolute.
  cbn [filepath.unix.volumeNameLen filepath.drop_str filepath.VolumeName
       filepath.take_str Str.is_empty].
  change ("" +:+ ?x) with x.
  unfold filepath.clean_rel.
  cbn [filepath.rooted filepath.elements].
  change (filepath.unix.IsPathSeparator filepath.unix.Separator) with true.
  cbn iota.
  destruct elems as [|e rest]; [reflexivity|].
  rewrite elements_join; [|reflexivity|done|].
  2:{ eapply Forall_impl; [exact Hall|]. intros ?. apply plain_sep_free. }
  cbn [foldl]. unfold filepath.clean_step at 2. cbn [bool_decide decide_rel].
  replace (foldl _ _ _) with (reverse (e :: rest) ++ []).
  2:{ symmetry. rewrite <- (foldl_clean_step_plain _ true (e :: rest) []) by done.
      reflexivity. }
  by rewrite app_nil_r, reverse_involutive.
Qed.

(** [Join] of such a path with further ordinary elements appends them. *)
Lemma unix_Join_absolute elems more :
  elems <> [] ->
  Forall (fun e => filepath.unix.plain e = true) elems ->
  Forall (fun e => filepath.unix.plain e = true) more ->
  filepath.unix.Join (filepath.unix.absolute elems :: more)
  = filepath.unix.absolute (elems ++ more).
Proof.
  intros Hne Hall Hmore.
  unfold filepath.unix.Join, filepath.Join. cbn [Str.is_empty filepath.unix.absolute].
  fold (filepath.unix.absolute elems).
  destruct more as [|m more'].
  - rewrite app_nil_r. cbn [Str.join]. by apply unix_Clean_absolute.
  - change (Str.join (String filepath.unix.Separator "")
              (filepath.unix.absolute elems :: m :: more'))
      with (filepath.unix.absolute elems +:+ "/"
            +:+ Str.join "/" (m :: more')).
    replace (filepath.unix.absolute elems +:+ "/" +:+ Str.join "/" (m :: more'))
      with (filepath.unix.absolute (elems ++ m :: more')).
    + apply unix_Clean_absolute. by apply Forall_app.
    + unfold filepath.unix.absolute. by rewrite Str_join_app.
Qed.

(** *** An empty last element

    [Join] of a path and the empty string is the path, cleaned: the
    separator put between them ends the path and [Clean] drops it. *)

Section TrailingSeparator.
Variable IsSep : ascii -> bool.
Variable sep : ascii.
Variable volumeNameLen : string -> nat.
Hypothesis sep_is_separator : IsSep sep = true.

Lemma drop_str_app n a x :
  filepath.drop_str n a <> "" ->
  filepath.drop_str n (a +:+ x) = filepath.drop_str n a +:+ x.
Proof.
  revert a. induction n as [|n IH]; intros [|c a] Hne; try done.
  cbn in Hne. change (String c a +:+ x) with (String c (a +:+ x)). cbn.
  by apply IH.
Qed.

Lemma take_str_app n a x :
  filepath.drop_str n a <> "" ->
  filepath.take_str n (a +:+ x) = filepath.take_str n a.
Proof.
  revert a. induction n as [|n IH]; intros [|c a] Hne; try done.
  cbn in Hne. change (String c a +:+ x) with (String c (a +:+ x)). cbn.
  by rewrite IH.
Qed.

Lemma clean_rel_trailing_separator path :
  path <> "" ->
  filepath.clean_rel IsSep sep (path +:+ String sep "")
  = filepath.clean_rel IsSep sep path.
Proof.
  intros Hne. unfold filepath.clean_rel.
  assert (Hroot : filepath.rooted IsSep (path +:+ String sep "")
                  = filepath.rooted IsSep path) by by destruct path.
  rewrite Hroot, elements_app_sep by done.
  change (filepath.elements IsSep "") with [""].
  by rewrite foldl_app.
Qed.

Lemma Clean_trailing_separator path :
  volumeNameLen (path +:+ String sep "") = volumeNameLen path ->
  filepath.drop_str (volumeNameLen path) path <> "" ->
  filepath.Clean IsSep sep volumeNameLen (path +:+ String sep "")
  = filepath.Clean IsSep sep volumeNameLen path.
Proof.
  intros Hvol Hrest. unfold filepath.Clean, filepath.VolumeName.
  rewrite Hvol, drop_str_app, take_str_app by done.
  rewrite clean_rel_trailing_separator by done.
  by destruct (filepath.drop_str (volumeNameLen path) path).
Qed.

End TrailingSeparator.

Lemma unix_Join_empty_last (path : string) :
  path <> "" -> filepath.unix.Join [path; ""] = filepath.unix.Clean path.
Proof.
  intros Hne. unfold filepath.unix.Join, filepath.Join.
  rewrite (proj2 (Str_is_empty_false path) Hne).
  change (Str.join (String filepath.unix.Separator "") [path; ""])
    with (path +:+ String filepath.unix.Separator "").
  by apply Clean_trailing_separator; [reflexivity|reflexivity|destruct path].
Qed.

Lemma windows_Join_empty_last (path : string) :
  path <> "" -> filepath.windows.Join [path; ""] = filepath.windows.Clean path.
Proof.
  intros Hne. unfold filepath.windows.Join.
  cbn [filepath.windows.skip_empty].
  apply Str_is_empty_false in Hne as Hne'. rewrite Hne'.
  destruct path as [|c [|d rest]]; [done| |].
  - (* one byte *)
    cbn [filepath.windows.joinNonEmpty].
    change (Str.join (String filepath.windows.Separator "") [String c ""; ""])
      with (String c "" +:+ String filepath.windows.Separator "").
    by apply Clean_trailing_separator.
  - destruct (decide (d = ":"%char /\ rest = "")) as [[-> ->]|Hdrive].
    + (* a bare drive letter *)
      cbn [filepath.windows.joinNonEmpty filepath.windows.skip_empty
           Str.is_empty Str.join].
      by rewrite Str_app_empty_r.
    + assert (Hjoin : filepath.windows.joinNonEmpty [String c (String d rest); ""]
                = filepath.windows.Clean
                    (String c (String d rest)
                     +:+ String filepath.windows.Separator "")).
      { unfold filepath.windows.joinNonEmpty.
        destruct (decide (d = ":"%char)) as [->|Hd].
        - destruct rest; [by destruct Hdrive|reflexivity].
        - destruct d as [[] [] [] [] [] [] [] []]; try reflexivity.
          destruct rest; [by destruct Hd|reflexivity]. }
      cbn [filepath.windows.skip_empty Str.is_empty]. rewrite Hjoin.
      apply Clean_trailing_separator; [done|reflexivity|].
      unfold filepath.windows.volumeNameLen.
      destruct (decide (d = ":"%char)) as [->|Hd].
      * destruct (filepath.windows.is_letter c); cbn; [|done].
        destruct rest; [by destruct Hdrive|done].
      * destruct d as [[] [] [] [] [] [] [] []]; try done.
Qed.

(** ** Running the methods *)

Ltac go_unfold :=
  unfold mbind, mret, Go_bind, Go_ret, rd, wr, runtime, set_app,
    application_Get, os_Getenv in *.

Ltac go_simpl := go_unfold; cbn [fst snd self world config app with_app
                                  with_config with_world] in *.

Lemma switch_GOOS_pure s : switch_GOOS s = (resolved s, s).
Proof.
  unfold resolved, switch_GOOS. go_simpl.
  repeat (case_bool_decide; cbn [negb]; try reflexivity).
Qed.

Lemma resolved_with_app a s : resolved (with_app a s) = resolved s.
Proof.
  destruct s as [[c ap] w]. unfold resolved, switch_GOOS, with_app. go_simpl.
  repeat (case_bool_decide; cbn [negb]; try reflexivity); cbn in *; congruence.
Qed.

Lemma resolved_returns s : exists r, resolved s = Ret r.
Proof.
  unfold resolved, switch_GOOS. go_simpl.
  repeat (case_bool_decide; cbn [negb fst]; eauto).
Qed.

(** The only error the [switch] returns is the one of its [default] case,
    and it returns it exactly on the platforms it does not name. *)
Lemma resolved_inr s e :
  resolved s = Ret (inr e) ->
  e = UnsupportedPlatformError
  /\ GOOS (platform (world s)) <> "windows"
  /\ GOOS (platform (world s)) <> "darwin"
  /\ GOOS (platform (world s)) <> "linux".
Proof.
  unfold resolved, switch_GOOS. go_simpl.
  repeat (case_bool_decide; cbn [negb fst]; try discriminate).
  intros [= <-]. auto.
Qed.

(** [createMemDB] ends in one of its two exits. *)
Lemma createMemDB_exits s :
  exists evs,
    emitted s (snd (createMemDB s)) evs
    /\ createMemDB_exit s (fst (createMemDB s))
         (config (self (snd (createMemDB s)))) evs.
Proof.
  exists [EvOpen "sqlite3" ":memory:"].
  unfold createMemDB, emitted, sql_Open. go_simpl.
  destruct (open_fault (emit (EvOpen "sqlite3" ":memory:") (world s)) ":memory:")
    as [e|] eqn:Hopen; cbn in Hopen |- *.
  - split; [reflexivity|]. by apply (exit_mem_open s).
  - split; [reflexivity|]. by apply (exit_mem_ready s).
Qed.

(** [createFileDB] ends in one of its six exits. *)
Lemma createFileDB_exits s :
  exists evs,
    emitted s (snd (createFileDB s)) evs
    /\ createFileDB_exit s (fst (createFileDB s))
         (config (self (snd (createFileDB s)))) evs.
Proof.
  unfold createFileDB. go_simpl. rewrite switch_GOOS_pure.
  destruct (resolved_returns s) as [[dir|e] Hres]; rewrite Hres.
  2:{ exists []. split; [unfold emitted; by rewrite app_nil_r|].
      by apply (exit_unsupported s). }
  unfold os_MkdirAll. cbn [emit mkdir_fault].
  destruct (mkdir_fault (world s) dir) as [e|] eqn:Hmk.
  { eexists. split; [reflexivity|]. by apply (exit_mkdir s). }
  cbn beta iota. unfold sql_Open.
  cbn [with_config with_world self world config emit set_files open_fault
       platform opened set_opened].
  fold (fileName s). fold (dataSourceName s dir).
  destruct (open_fault (world s) (dataSourceName s dir)) as [e|] eqn:Hop.
  { eexists. split; [unfold emitted; cbn; by rewrite <- app_assoc|].
    cbn. by apply (exit_open s). }
  cbn beta iota. unfold SetMaxIdleConns, SetMaxOpenConns, Ping.
  cbn [with_config with_world self world config emit set_files ping_fault
       platform opened set_opened set_savedPath MaxIdleConnections
       MaxOpenConnections db_dsn].
  fold (dataSourceName s dir). fold (pool s dir). fold (idle s). fold (open s).
  destruct (ping_fault (world s) (dataSourceName s dir)) as [e|] eqn:Hpi.
  { eexists. split; [unfold emitted; cbn; by rewrite <- !app_assoc|].
    cbn. by apply (exit_ping s). }
  cbn beta iota. unfold Logger_Info.
  cbn [with_config with_world self world config app].
  destruct (app (self s)) as [a|] eqn:Happ.
  - eexists. split; [unfold emitted; cbn; by rewrite <- !app_assoc|].
    cbn. by eapply (exit_ready s).
  - eexists. split; [unfold emitted; cbn; by rewrite <- !app_assoc|].
    cbn. by apply (exit_nil_app s).
Qed.

(** [Init] stores the host application and hands over to one of the two. *)
Lemma Init_in_memory s :
  InMemory (config (self s)) = true ->
  Init s = createMemDB (with_app (globalApplication (world s)) s).
Proof.
  intros Hmem. unfold Init. go_simpl. by rewrite Hmem.
Qed.

Lemma Init_file_backed s :
  InMemory (config (self s)) = false ->
  DbName (config (self s)) <> "" ->
  Init s = createFileDB (with_app (globalApplication (world s)) s).
Proof.
  intros Hmem Hname. unfold Init. go_simpl. rewrite Hmem. cbn beta.
  cbn [with_app self config]. by rewrite bool_decide_eq_false_2.
Qed.

(** The exits of [createFileDB], read from the state [Init] was called in. *)
Lemma Init_file_backed_exits s :
  InMemory (config (self s)) = false ->
  DbName (config (self s)) <> "" ->
  exists evs,
    emitted s (snd (Init s)) evs
    /\ createFileDB_exit (with_app (globalApplication (world s)) s)
         (fst (Init s)) (config (self (snd (Init s)))) evs.
Proof.
  intros Hmem Hname. rewrite (Init_file_backed s Hmem Hname).
  destruct (createFileDB_exits (with_app (globalApplication (world s)) s))
    as (evs & Hem & Hex).
  exists evs. split; [exact Hem | exact Hex].
Qed.

(** Storing the host application changes none of the values
    [createFileDB] computes. *)
Lemma fileName_with_app a s : fileName (with_app a s) = fileName s.
Proof. reflexivity. Qed.
Lemma dataSourceName_with_app a s dir :
  dataSourceName (with_app a s) dir = dataSourceName s dir.
Proof. reflexivity. Qed.
Lemma pool_with_app a s dir : pool (with_app a s) dir = pool s dir.
Proof. reflexivity. Qed.
Lemma idle_with_app a s : idle (with_app a s) = idle s.
Proof. reflexivity. Qed.
Lemma open_with_app a s : open (with_app a s) = open s.
Proof. reflexivity. Qed.
Lemma log_line_with_app a s dir : log_line (with_app a s) dir = log_line s dir.
Proof. reflexivity. Qed.

(** Reading an exit of [createFileDB] reached through [Init] in terms of
    the state [Init] started in. *)
Ltac exits_of_Init Hmem Hname :=
  let evs := fresh "evs" in
  let Hem := fresh "Hem" in
  let Hex := fresh "Hex" in
  match type of Hmem with
  | InMemory (config (self ?s)) = false =>
      destruct (Init_file_backed_exits s Hmem Hname) as (evs & Hem & Hex);
      inversion Hex; subst;
      repeat match goal with
        | H : resolved (with_app _ _) = _ |- _ => rewrite resolved_with_app in H
        end;
      cbn [with_app self world config app] in *;
      rewrite ?fileName_with_app, ?dataSourceName_with_app, ?pool_with_app,
        ?idle_with_app, ?open_with_app, ?log_line_with_app in *
  end.

(** ** The handle ([GetDB]) *)

(** C10. [GetDB] never returns an error: in every state of the manager,
    also before [Init] when the stored handle is [nil], it returns the
    handle stored in the configuration together with a [nil] error, and
    changes nothing. *)
Theorem GetDB_returns_stored_handle (s : State) :
  GetDB s = (Ret (DB (config (self s)), None), s).
Proof. reflexivity. Qed.

(** Before [Init], the handle [GetDB] returns is [nil]. *)
Example GetDB_before_Init (c : Config) (w : World) :
  DB c = None ->
  fst (GetDB (Ex.start c w)) = Ret (None, None).
Proof. intros H. rewrite <- H. reflexivity. Qed.

(** [SetDB] replaces the handle [GetDB] returns, and refuses [nil]. *)
Lemma SetDB_then_GetDB (s : State) (db : sql_DB) :
  fst (SetDB (Some db) s) = Ret None
  /\ fst (GetDB (snd (SetDB (Some db) s))) = Ret (Some db, None).
Proof. split; reflexivity. Qed.

Lemma SetDB_nil (s : State) :
  SetDB None s = (Ret (Some NilHandleError), s).
Proof. reflexivity. Qed.

(** ** [Init] without a name *)

Lemma Init_nameless_run (s : State) :
  InMemory (config (self s)) = false ->
  DbName (config (self s)) = "" ->
  Init s = (Ret (Some ConfigurationError),
            with_app (globalApplication (world s)) s).
Proof.
  intros Hmem Hname. unfold Init. go_simpl.
  rewrite Hmem. cbn beta. cbn [with_app self config]. by rewrite Hname.
Qed.

(** C4. With an empty [DbName] and [InMemory] false, [Init] fails with the
    configuration error and touches neither the world (no file system or
    connection operation: trace, files and pools are as before) nor the
    configuration with its handle and recorded path; the one assignment it
    has made is [p.app = application.Get()]. *)
Theorem Init_empty_name (s : State) :
  InMemory (config (self s)) = false ->
  DbName (config (self s)) = "" ->
  fst (Init s) = Ret (Some ConfigurationError)
  /\ world (snd (Init s)) = world s
  /\ config (self (snd (Init s))) = config (self s)
  /\ app (self (snd (Init s))) = globalApplication (world s).
Proof.
  intros Hmem Hname. rewrite (Init_nameless_run s Hmem Hname). auto.
Qed.

Lemma Init_empty_name_witness :
  fst (Init Ex.nameless) = Ret (Some ConfigurationError)
  /\ world (snd (Init Ex.nameless)) = world Ex.nameless
  /\ config (self (snd (Init Ex.nameless))) = config (self Ex.nameless)
  /\ app (self (snd (Init Ex.nameless))) = globalApplication (world Ex.nameless).
Proof.
  apply (Init_empty_name Ex.nameless); reflexivity.
Defined.

(** ** [Init] in memory *)

Lemma Init_memory_run (s : State) :
  InMemory (config (self s)) = true ->
  emitted s (snd (Init s)) [EvOpen "sqlite3" ":memory:"]
  /\ files (world (snd (Init s))) = files (world s)
  /\ match open_fault (world s) ":memory:" with
     | Some e =>
         fst (Init s) = Ret (Some (ConnectionError true e))
         /\ config (self (snd (Init s))) = config (self s)
     | None =>
         fst (Init s) = Ret None
         /\ config (self (snd (Init s))) =
              set_DB (Some {| db_id := opened (world s); db_dsn := ":memory:" |})
                     (config (self s))
     end.
Proof.
  intros Hmem. rewrite (Init_in_memory s Hmem).
  unfold createMemDB, emitted, sql_Open. go_simpl.
  cbn [emit open_fault].
  destruct (open_fault (world s) ":memory:") as [e|]; cbn; auto.
Qed.

(** C5. With [InMemory] set, [Init] does one thing to the world: it opens
    the data source [":memory:"].  No directory is made and the files are
    as before; whatever the platform, the environment, the name and the
    directory fields are, the outcome depends on the answer of [sql.Open]
    alone: an error of it comes back wrapped as the connection error and
    leaves the configuration as it was, and otherwise [Init] succeeds with
    the new handle stored. *)
Theorem in_memory_Init (s : State) :
  InMemory (config (self s)) = true ->
  emitted s (snd (Init s)) [EvOpen "sqlite3" ":memory:"]
  /\ files (world (snd (Init s))) = files (world s)
  /\ match open_fault (world s) ":memory:" with
     | Some e =>
         fst (Init s) = Ret (Some (ConnectionError true e))
         /\ config (self (snd (Init s))) = config (self s)
     | None =>
         fst (Init s) = Ret None
         /\ config (self (snd (Init s))) =
              set_DB (Some {| db_id := opened (world s); db_dsn := ":memory:" |})
                     (config (self s))
     end.
Proof. exact (Init_memory_run s). Qed.

Lemma in_memory_Init_witness :
  emitted Ex.in_memory (snd (Init Ex.in_memory)) [EvOpen "sqlite3" ":memory:"]
  /\ files (world (snd (Init Ex.in_memory))) = files (world Ex.in_memory)
  /\ fst (Init Ex.in_memory) = Ret None
  /\ config (self (snd (Init Ex.in_memory))) =
       set_DB (Some {| db_id := 0; db_dsn := ":memory:" |})
              (config (self Ex.in_memory)).
Proof.
  apply (in_memory_Init Ex.in_memory). reflexivity.
Defined.

(** Two in-memory runs differ only by what [sql.Open] answers: platform,
    environment, name and directories play no part. *)
Corollary Init_memory_ignores_paths (s1 s2 : State) :
  InMemory (config (self s1)) = true ->
  InMemory (config (self s2)) = true ->
  open_fault (world s1) ":memory:" = open_fault (world s2) ":memory:" ->
  fst (Init s1) = fst (Init s2).
Proof.
  intros H1 H2 Hop.
  destruct (Init_memory_run s1 H1) as (_ & _ & R1).
  destruct (Init_memory_run s2 H2) as (_ & _ & R2).
  rewrite Hop in R1.
  destruct (open_fault (world s2) ":memory:");
    destruct R1 as [-> _]; destruct R2 as [-> _]; reflexivity.
Qed.

(** ** [Init] that fails *)

(** C3 (as amended). When [Init] returns an error, the stored connection
    handle is what it was before the call.  After a missing name, an
    unsupported platform, a failed directory creation or a failed
    in-memory open the whole configuration, recorded path included, is
    unchanged; after a failed file open or a failed ping the recorded path
    has already been set to the file name, and nothing else has changed. *)
Theorem Init_error_keeps_handle (s : State) (e : error) :
  fst (Init s) = Ret (Some e) ->
  DB (config (self (snd (Init s)))) = DB (config (self s))
  /\ (((e = ConfigurationError \/ e = UnsupportedPlatformError
        \/ (exists cause, e = DirectoryError cause)
        \/ (exists cause, e = ConnectionError true cause))
       /\ config (self (snd (Init s))) = config (self s))
      \/ (((exists cause, e = ConnectionError false cause)
           \/ (exists cause, e = ConnectivityError cause))
          /\ config (self (snd (Init s))) =
               set_savedPath (fileName s) (config (self s)))).
Proof.
  intros Herr.
  destruct (InMemory (config (self s))) eqn:Hmem.
  { destruct (Init_memory_run s Hmem) as (_ & _ & R).
    destruct (open_fault (world s) ":memory:") as [c|]; destruct R as [R1 R2].
    - rewrite R1 in Herr. injection Herr as <-. rewrite R2.
      split; [reflexivity|]. left. split; [|reflexivity]. eauto 6.
    - rewrite R1 in Herr. discriminate. }
  destruct (decide (DbName (config (self s)) = "")) as [Hname|Hname].
  { rewrite (Init_nameless_run s Hmem Hname) in Herr |- *.
    injection Herr as <-. cbn. split; [reflexivity|]. left. auto. }
  exits_of_Init Hmem Hname;
    match goal with
    | H : _ = fst (Init s) |- _ => rewrite <- H in Herr
    end; try discriminate; injection Herr as <-.
  - split; [reflexivity|]. left. split; [|reflexivity].
    destruct (resolved_inr s _ ltac:(eassumption)) as [-> _]. auto.
  - split; [reflexivity|]. left. split; [|reflexivity]. eauto 6.
  - split; [reflexivity|]. right. split; [|reflexivity]. eauto.
  - split; [reflexivity|]. right. split; [|reflexivity]. eauto.
Qed.

Lemma Init_error_keeps_handle_witness :
  fst (Init Ex.ping_down)
    = Ret (Some (ConnectivityError (foreign_error "unable to open database file")))
  /\ DB (config (self (snd (Init Ex.ping_down)))) = None
  /\ config (self (snd (Init Ex.ping_down)))
     = set_savedPath "app.db" (config (self Ex.ping_down)).
Proof.
  assert (Herr : fst (Init Ex.ping_down)
    = Ret (Some (ConnectivityError (foreign_error "unable to open database file"))))
    by (vm_compute; reflexivity).
  split; [exact Herr|].
  destruct (Init_error_keeps_handle Ex.ping_down _ Herr) as [Hdb _].
  split; [exact Hdb|]. vm_compute. reflexivity.
Defined.

(** C3 as the specification words it fails: with a database that does not
    answer the ping, [Init] returns an error and the recorded path is no
    longer what it was. *)
Lemma Init_error_keeps_path_counterexample :
  ~ (forall e, fst (Init Ex.ping_down) = Ret (Some e) ->
       DB (config (self (snd (Init Ex.ping_down))))
         = DB (config (self Ex.ping_down))
       /\ savedPath (config (self (snd (Init Ex.ping_down))))
         = savedPath (config (self Ex.ping_down))).
Proof.
  intros H.
  specialize (H (ConnectivityError (foreign_error "unable to open database file"))
                ltac:(vm_compute; reflexivity)).
  destruct H as [_ Hpath]. vm_compute in Hpath. discriminate.
Qed.

(** ** The directory, per platform *)

Lemma resolved_windows (s : State) :
  GOOS (platform (world s)) = "windows" ->
  resolved s =
    Ret (inl (if bool_decide (WindowsDir (config (self s)) = "")
              then filepath_Join (platform (world s))
                     [getenv s "APPDATA"; WindowsDir (config (self s))]
              else WindowsDir (config (self s)))).
Proof.
  intros Hos. unfold resolved, switch_GOOS, getenv. go_simpl. rewrite Hos.
  repeat (case_bool_decide; try done; cbn [negb fst]).
Qed.

Lemma resolved_linux (s : State) :
  GOOS (platform (world s)) = "linux" ->
  resolved s =
    Ret (inl (if bool_decide (LinuxDir (config (self s)) = "")
              then filepath_Join (platform (world s))
                     [getenv s "HOME"; ".config"; DbName (config (self s))]
              else LinuxDir (config (self s)))).
Proof.
  intros Hos. unfold resolved, switch_GOOS, getenv. go_simpl. rewrite Hos.
  repeat (case_bool_decide; try done; cbn [negb fst]).
Qed.

Lemma resolved_darwin (s : State) :
  GOOS (platform (world s)) = "darwin" ->
  resolved s =
    Ret (inl (if bool_decide (MacDir (config (self s)) = "")
              then filepath_Join (platform (world s))
                     [getenv s "HOME"; "Library"; "Application Support";
                      DbName (config (self s));
                      DbName (config (self s)) +:+ ".db"]
              else MacDir (config (self s)))).
Proof.
  intros Hos. unfold resolved, switch_GOOS, getenv. go_simpl. rewrite Hos.
  repeat (case_bool_decide; try done; cbn [negb fst]).
Qed.

(** The file name [createFileDB] composes. *)
Lemma fileName_shared (s : State) :
  fileName s =
    if CacheShared (config (self s))
    then DbName (config (self s)) +:+ ".db?cache=shared"
    else DbName (config (self s)) +:+ ".db".
Proof.
  unfold fileName, fileName_of. destruct (CacheShared _); [|reflexivity].
  by rewrite Str_app_assoc.
Qed.

(** C7. On Windows the directory is the override whenever one is set; with
    no override it is [filepath.Join] of the value of [APPDATA] and the
    empty override, in which the name of the database has no part. *)
Theorem windows_directory (s : State) :
  GOOS (platform (world s)) = "windows" ->
  (WindowsDir (config (self s)) <> "" ->
   resolved s = Ret (inl (WindowsDir (config (self s)))))
  /\ (WindowsDir (config (self s)) = "" ->
      resolved s =
        Ret (inl (filepath_Join (platform (world s)) [getenv s "APPDATA"; ""]))).
Proof.
  intros Hos. rewrite (resolved_windows s Hos). split; intros Hdir.
  - by rewrite bool_decide_eq_false_2.
  - by rewrite bool_decide_eq_true_2, Hdir.
Qed.

Lemma windows_directory_witness :
  GOOS (platform (world Ex.on_windows)) = "windows"
  /\ resolved Ex.on_windows = Ret (inl "C:\Users\u\AppData\Roaming").
Proof.
  split; [reflexivity|].
  destruct (windows_directory Ex.on_windows eq_refl) as [_ H].
  rewrite (H eq_refl). vm_compute. reflexivity.
Defined.

(** On the drive-letter model of Windows paths the fallback is the value
    of [APPDATA] itself, cleaned; with [APPDATA] unset it is the empty
    path. *)
Lemma windows_default_is_appdata (s : State) :
  platform (world s) = windows ->
  WindowsDir (config (self s)) = "" ->
  resolved s =
    Ret (inl (if bool_decide (getenv s "APPDATA" = "") then ""
              else filepath.windows.Clean (getenv s "APPDATA"))).
Proof.
  intros Hpf Hdir. rewrite resolved_windows by (by rewrite Hpf).
  rewrite bool_decide_eq_true_2 by done. rewrite Hpf, Hdir.
  cbn [filepath_Join windows]. case_bool_decide as Henv.
  - by rewrite Henv.
  - by rewrite windows_Join_empty_last.
Qed.

Lemma sep_free_app IsSep a b :
  filepath.sep_free IsSep a = true -> filepath.sep_free IsSep b = true ->
  filepath.sep_free IsSep (a +:+ b) = true.
Proof.
  intros Ha Hb. induction a as [|c a IH]; [done|].
  change (String c a +:+ b) with (String c (a +:+ b)). cbn in Ha |- *.
  apply andb_true_iff in Ha as [Hc Ha]. rewrite Hc. by apply IH.
Qed.

(** An ordinary name stays one when an extension is put after it. *)
Lemma plain_app IsSep name ext :
  filepath.plain IsSep name = true ->
  filepath.sep_free IsSep ext = true ->
  filepath.plain IsSep (name +:+ ext) = true.
Proof.
  unfold filepath.plain.
  intros [[[H1 H2]%andb_true_iff H3]%andb_true_iff H4]%andb_true_iff Hext.
  apply negb_true_iff, bool_decide_eq_false in H1, H2, H3.
  rewrite (sep_free_app _ _ _ H4 Hext), andb_true_r.
  destruct name as [|a [|b [|c n]]]; try done.
  - change (String a "" +:+ ext) with (String a ext).
    destruct ext as [|x [|y ext]]; repeat case_bool_decide; simplify_eq; done.
  - change (String a (String b "") +:+ ext) with (String a (String b ext)).
    destruct ext as [|x ext]; repeat case_bool_decide; simplify_eq; done.
  - change (String a (String b (String c n)) +:+ ext)
      with (String a (String b (String c (n +:+ ext)))).
    repeat case_bool_decide; simplify_eq; done.
Qed.

(** The documented default on Linux, letter by letter: for a home
    directory [/h1/.../hn] and an ordinary name, the directory is
    [$HOME/.config/name] and the data source is the file name in it. *)
Lemma linux_default_paths (s : State) (home_elems : list string) :
  platform (world s) = linux ->
  getenv s "HOME" = filepath.unix.absolute home_elems ->
  home_elems <> [] ->
  Forall (fun e => filepath.unix.plain e = true) home_elems ->
  filepath.unix.plain (DbName (config (self s))) = true ->
  LinuxDir (config (self s)) = "" ->
  let dir := getenv s "HOME" +:+ "/.config/" +:+ DbName (config (self s)) in
  resolved s = Ret (inl dir)
  /\ dataSourceName s dir = dir +:+ "/" +:+ fileName s.
Proof.
  intros Hpf Hhome Hne Hall Hname Hdir dir.
  assert (Hd : dir = filepath.unix.absolute
                       (home_elems ++ [".config"; DbName (config (self s))])).
  { unfold dir. rewrite Hhome. unfold filepath.unix.absolute.
    rewrite Str_join_app by done. reflexivity. }
  assert (Hfile : filepath.unix.plain (fileName s) = true).
  { rewrite fileName_shared. destruct (CacheShared _); by apply plain_app. }
  assert (Hall' : Forall (fun e => filepath.unix.plain e = true)
                    (home_elems ++ [".config"; DbName (config (self s))])).
  { apply Forall_app. split; [done|]. repeat constructor; done. }
  split.
  - rewrite resolved_linux by (by rewrite Hpf).
    rewrite bool_decide_eq_true_2 by done. rewrite Hpf, Hhome.
    cbn [filepath_Join linux]. rewrite unix_Join_absolute by (repeat constructor; done).
    by rewrite Hd.
  - unfold dataSourceName. rewrite Hpf. cbn [filepath_Join linux].
    rewrite Hd. rewrite unix_Join_absolute; [|by destruct home_elems|done|by repeat constructor].
    unfold filepath.unix.absolute. rewrite Str_join_app; [|by destruct home_elems|done].
    reflexivity.
Qed.

Example linux_default_paths_app :
  resolved Ex.delete_file = Ret (inl "/home/u/.config/app")
  /\ dataSourceName Ex.delete_file "/home/u/.config/app"
     = "/home/u/.config/app/app.db".
Proof.
  apply (linux_default_paths Ex.delete_file ["home"; "u"]);
    try reflexivity; try discriminate.
  repeat constructor.
Qed.

(** C6. On Linux, with a name and no override, the directory is
    [filepath.Join] of [$HOME], [.config] and the name; [Init] first makes
    that directory and then, once it exists, opens the database at the
    directory joined with the file name, which is the name followed by
    [.db] and, with a shared cache, by the cache modifier. *)
Theorem linux_default_directory (s : State) :
  GOOS (platform (world s)) = "linux" ->
  InMemory (config (self s)) = false ->
  DbName (config (self s)) <> "" ->
  LinuxDir (config (self s)) = "" ->
  let name := DbName (config (self s)) in
  let dir := filepath_Join (platform (world s)) [getenv s "HOME"; ".config"; name] in
  let file := if CacheShared (config (self s))
              then name +:+ ".db?cache=shared" else name +:+ ".db" in
  resolved s = Ret (inl dir)
  /\ exists rest,
       emitted s (snd (Init s)) (EvMkdirAll dir perm_0755 :: rest)
       /\ (mkdir_fault (world s) dir = None ->
           exists rest',
             rest = EvOpen "sqlite3"
                      (filepath_Join (platform (world s)) [dir; file]) :: rest').
Proof.
  intros Hos Hmem Hname Hdir name dir file.
  assert (Hres : resolved s = Ret (inl dir)).
  { rewrite (resolved_linux s Hos). by rewrite bool_decide_eq_true_2. }
  split; [exact Hres|].
  assert (Hfile : fileName s = file) by apply fileName_shared.
  exits_of_Init Hmem Hname;
    match goal with
    | H : resolved s = _ |- _ => rewrite Hres in H; try discriminate H;
                                 injection H as <-
    end;
    (eexists; split; [exact Hem|]); intros Hmk; try congruence;
    unfold dataSourceName; rewrite Hfile; eauto.
Qed.

Lemma linux_default_directory_witness :
  resolved Ex.delete_file = Ret (inl "/home/u/.config/app")
  /\ exists rest,
       emitted Ex.delete_file (snd (Init Ex.delete_file))
         (EvMkdirAll "/home/u/.config/app" perm_0755
          :: EvOpen "sqlite3" "/home/u/.config/app/app.db" :: rest).
Proof.
  destruct (linux_default_directory Ex.delete_file eq_refl eq_refl
              ltac:(discriminate) eq_refl) as (Hres & rest & Hem & Hopen).
  split; [exact Hres|].
  destruct (Hopen eq_refl) as [rest' ->]. exists rest'. exact Hem.
Defined.

(** ** The connection *)

(** C9. The file name used to open the connection is the name followed by
    [.db], with the modifier [?cache=shared] after it when [CacheShared] is
    set, and nothing after it when not; it is joined to the directory and
    opened once. *)
Theorem shared_cache_modifier (s : State) (dir : string) :
  InMemory (config (self s)) = false ->
  DbName (config (self s)) <> "" ->
  resolved s = Ret (inl dir) ->
  mkdir_fault (world s) dir = None ->
  let name := DbName (config (self s)) in
  let file := if CacheShared (config (self s))
              then (name +:+ ".db") +:+ "?cache=shared" else name +:+ ".db" in
  exists rest,
    emitted s (snd (Init s))
      (EvMkdirAll dir perm_0755
       :: EvOpen "sqlite3" (filepath_Join (platform (world s)) [dir; file])
       :: rest)
    /\ forall driverName dataSourceName, EvOpen driverName dataSourceName ∉ rest.
Proof.
  intros Hmem Hname Hres Hmk name file.
  exits_of_Init Hmem Hname;
    match goal with
    | H : resolved s = _ |- _ => rewrite Hres in H; try discriminate H;
                                 injection H as <-
    end; try congruence;
    (eexists; split; [exact Hem|]); intros d n Hin;
    repeat (apply elem_of_cons in Hin as [Hin|Hin]; [discriminate Hin|]);
    by apply elem_of_nil in Hin.
Qed.

Lemma shared_cache_modifier_witness :
  exists rest,
    emitted Ex.shared_cache (snd (Init Ex.shared_cache))
      (EvMkdirAll "/home/u/.config/app" perm_0755
       :: EvOpen "sqlite3" "/home/u/.config/app/app.db?cache=shared"
       :: rest)
    /\ forall driverName dataSourceName, EvOpen driverName dataSourceName ∉ rest.
Proof.
  apply (shared_cache_modifier Ex.shared_cache "/home/u/.config/app");
    [reflexivity | discriminate | vm_compute; reflexivity | reflexivity].
Defined.

(** C8. Once a file-backed [Init] has its connection, it sets the idle
    bound (2 for a configured 0, the configured value otherwise), then the
    open bound (1 for a configured 0, the configured value otherwise), and
    only then pings; nothing but the log line follows. *)
Theorem pool_bounds_before_ping (s : State) (dir : string) :
  InMemory (config (self s)) = false ->
  DbName (config (self s)) <> "" ->
  resolved s = Ret (inl dir) ->
  mkdir_fault (world s) dir = None ->
  open_fault (world s) (dataSourceName s dir) = None ->
  let effective_idle :=
    if bool_decide (MaxIdleConnections (config (self s)) = 0) then 2
    else MaxIdleConnections (config (self s)) in
  let effective_open :=
    if bool_decide (MaxOpenConnections (config (self s)) = 0) then 1
    else MaxOpenConnections (config (self s)) in
  exists rest,
    emitted s (snd (Init s))
      ([EvMkdirAll dir perm_0755;
        EvOpen "sqlite3" (dataSourceName s dir);
        EvSetMaxIdleConns (pool s dir) effective_idle;
        EvSetMaxOpenConns (pool s dir) effective_open;
        EvPing (pool s dir)] ++ rest)
    /\ (rest = [] \/ rest = [log_line s dir]).
Proof.
  intros Hmem Hname Hres Hmk Hop ei eo.
  exits_of_Init Hmem Hname;
    match goal with
    | H : resolved s = _ |- _ => rewrite Hres in H; try discriminate H;
                                 injection H as <-
    end;
    try congruence; (eexists; split; [exact Hem|]); auto.
Qed.

Lemma pool_bounds_before_ping_witness :
  exists rest,
    emitted Ex.delete_file (snd (Init Ex.delete_file))
      ([EvMkdirAll "/home/u/.config/app" perm_0755;
        EvOpen "sqlite3" "/home/u/.config/app/app.db";
        EvSetMaxIdleConns {| db_id := 0; db_dsn := "/home/u/.config/app/app.db" |} 2;
        EvSetMaxOpenConns {| db_id := 0; db_dsn := "/home/u/.config/app/app.db" |} 1;
        EvPing {| db_id := 0; db_dsn := "/home/u/.config/app/app.db" |}] ++ rest)
    /\ (rest = [] \/ rest = [log_line Ex.delete_file "/home/u/.config/app"]).
Proof.
  apply (pool_bounds_before_ping Ex.delete_file "/home/u/.config/app");
    [reflexivity | discriminate | vm_compute; reflexivity
    | reflexivity | reflexivity].
Defined.

(** ** [Shutdown] *)

(** What a successful file-backed [Init] leaves behind: the handle of the
    database at the directory joined with the file name, and, as the
    recorded path, the file name alone. *)
Lemma Init_ready_records_file_name (s : State) :
  InMemory (config (self s)) = false ->
  fst (Init s) = Ret None ->
  exists dir,
    resolved s = Ret (inl dir)
    /\ DB (config (self (snd (Init s)))) = Some (pool s dir)
    /\ db_dsn (pool s dir) = filepath_Join (platform (world s)) [dir; fileName s]
    /\ savedPath (config (self (snd (Init s)))) = fileName s.
Proof.
  intros Hmem Hok.
  destruct (decide (DbName (config (self s)) = "")) as [Hname|Hname].
  { rewrite (Init_nameless_run s Hmem Hname) in Hok. discriminate. }
  exits_of_Init Hmem Hname;
    match goal with
    | H : _ = fst (Init s) |- _ => rewrite <- H in Hok
    end; try discriminate.
  exists dir. repeat split; try assumption.
Qed.

(** [Shutdown] hands [os.RemoveAll] the recorded path, or its [Dir]. *)
Lemma Shutdown_removes_recorded_path (s : State) :
  DeleteOnShutdown (config (self s)) = true ->
  InMemory (config (self s)) = false ->
  emitted s (snd (Shutdown s))
    [EvRemoveAll
       (if DeleteDir (config (self s))
        then filepath_Dir (platform (world s)) (savedPath (config (self s)))
        else savedPath (config (self s)))].
Proof.
  intros Hdel Hmem. unfold Shutdown, emitted. go_simpl.
  rewrite Hdel, Hmem. cbn beta iota.
  destruct (DeleteDir (config (self s))); unfold os_RemoveAll;
    repeat (match goal with
            | |- context [if ?b then _ else _] => destruct b
            | |- context [match ?o with Some _ => _ | None => _ end] =>
                destruct o
            end; cbn); reflexivity.
Qed.

(** [Shutdown] does nothing when it is not asked to delete, or when the
    database is in memory. *)
Lemma Shutdown_no_op (s : State) :
  DeleteOnShutdown (config (self s)) = false
  \/ InMemory (config (self s)) = true ->
  Shutdown s = (Ret None, s).
Proof.
  intros H. unfold Shutdown. go_simpl.
  destruct (DeleteOnShutdown (config (self s))); [|reflexivity].
  destruct H as [H|H]; [discriminate|]. by rewrite H.
Qed.

(** C1, on a Linux machine where the working directory is not the
    directory of the database.  [Init] opens
    [/home/u/.config/app/app.db] but records [app.db]; [Shutdown] hands
    that relative path to [os.RemoveAll], which removes [app.db] of the
    working directory: the database file is still there, and a file that
    was never the plugin's is gone. *)
Theorem Shutdown_misses_database_file :
  fst (Init Ex.delete_file) = Ret None
  /\ DB (config (self (Ex.ready Ex.delete_file)))
     = Some {| db_id := 0; db_dsn := "/home/u/.config/app/app.db" |}
  /\ savedPath (config (self (Ex.ready Ex.delete_file))) = "app.db"
  /\ fst (Shutdown (Ex.ready Ex.delete_file)) = Ret None
  /\ emitted (Ex.ready Ex.delete_file) (Ex.closed Ex.delete_file)
       [EvRemoveAll "app.db"]
  /\ "/home/u/.config/app/app.db" ∈ files (world (Ex.closed Ex.delete_file))
  /\ "/work/app.db" ∈ files (world (Ex.ready Ex.delete_file))
  /\ "/work/app.db" ∉ files (world (Ex.closed Ex.delete_file)).
Proof.
  do 5 (split; [vm_compute; reflexivity|]).
  repeat split; apply (bool_decide_unpack _); vm_compute; exact I.
Qed.

(** C2, on the same machine.  With [DeleteDir] set, [Shutdown] takes
    [filepath.Dir] of the recorded [app.db], which is [.], and
    [os.RemoveAll] refuses a path ending in a dot: [Shutdown] fails, no
    file is removed, and the directory of the database is still there. *)
Theorem Shutdown_misses_database_directory :
  fst (Init Ex.delete_dir) = Ret None
  /\ DB (config (self (Ex.ready Ex.delete_dir)))
     = Some {| db_id := 0; db_dsn := "/home/u/.config/app/app.db" |}
  /\ savedPath (config (self (Ex.ready Ex.delete_dir))) = "app.db"
  /\ fst (Shutdown (Ex.ready Ex.delete_dir))
     = Ret (Some (DeletionError (PathError "RemoveAll" "." "invalid argument")))
  /\ emitted (Ex.ready Ex.delete_dir) (Ex.closed Ex.delete_dir)
       [EvRemoveAll "."]
  /\ files (world (Ex.closed Ex.delete_dir))
     = files (world (Ex.ready Ex.delete_dir))
  /\ "/home/u/.config/app" ∈ files (world (Ex.closed Ex.delete_dir))
  /\ "/home/u/.config/app/app.db" ∈ files (world (Ex.closed Ex.delete_dir)).
Proof.
  do 6 (split; [vm_compute; reflexivity|]).
  split; apply (bool_decide_unpack _); vm_compute; exact I.
Qed.

(** * Further properties of the plugin *)

(** ** What [Init] needs to succeed *)

Lemma resolved_other (s : State) :
  GOOS (platform (world s)) <> "windows" ->
  GOOS (platform (world s)) <> "darwin" ->
  GOOS (platform (world s)) <> "linux" ->
  resolved s = Ret (inr UnsupportedPlatformError).
Proof.
  intros Hw Hd Hl. unfold resolved, switch_GOOS. go_simpl.
  rewrite !bool_decide_eq_false_2 by done. reflexivity.
Qed.

(** X1. A file-backed [Init] returns [nil] exactly when the platform is
    one of the three, [MkdirAll], [sql.Open] and [Ping] all succeed, and
    the host application exists for the log line. *)
Theorem Init_succeeds_iff (s : State) :
  InMemory (config (self s)) = false ->
  DbName (config (self s)) <> "" ->
  fst (Init s) = Ret None
  <-> exists dir,
        resolved s = Ret (inl dir)
        /\ mkdir_fault (world s) dir = None
        /\ open_fault (world s) (dataSourceName s dir) = None
        /\ ping_fault (world s) (dataSourceName s dir) = None
        /\ globalApplication (world s) <> None.
Proof.
  intros Hmem Hname. split.
  - intros Hok.
    exits_of_Init Hmem Hname;
      match goal with
      | H : _ = fst (Init s) |- _ => rewrite <- H in Hok
      end; try discriminate.
    exists dir. repeat split; try assumption. congruence.
  - intros (dir & Hres & Hmk & Hop & Hpi & Happ).
    exits_of_Init Hmem Hname;
      match goal with
      | H : resolved s = _ |- _ => rewrite Hres in H; try discriminate H;
                                   injection H as <-
      end; congruence.
Qed.

Lemma Init_succeeds_iff_witness :
  fst (Init Ex.delete_file) = Ret None
  <-> exists dir,
        resolved Ex.delete_file = Ret (inl dir)
        /\ mkdir_fault (world Ex.delete_file) dir = None
        /\ open_fault (world Ex.delete_file) (dataSourceName Ex.delete_file dir) = None
        /\ ping_fault (world Ex.delete_file) (dataSourceName Ex.delete_file dir) = None
        /\ globalApplication (world Ex.delete_file) <> None.
Proof.
  apply (Init_succeeds_iff Ex.delete_file); [reflexivity | discriminate].
Defined.

(** X2. On a platform other than Windows, macOS and Linux a file-backed
    [Init] fails with the unsupported-platform error before it has done
    anything: no call to the OS or the driver, the configuration as it
    was. *)
Theorem Init_unsupported_platform (s : State) :
  InMemory (config (self s)) = false ->
  DbName (config (self s)) <> "" ->
  GOOS (platform (world s)) <> "windows" ->
  GOOS (platform (world s)) <> "darwin" ->
  GOOS (platform (world s)) <> "linux" ->
  fst (Init s) = Ret (Some UnsupportedPlatformError)
  /\ world (snd (Init s)) = world s
  /\ config (self (snd (Init s))) = config (self s).
Proof.
  intros Hmem Hname Hw Hd Hl.
  rewrite (Init_file_backed s Hmem Hname).
  unfold createFileDB. go_simpl. rewrite switch_GOOS_pure, resolved_with_app.
  rewrite (resolved_other s Hw Hd Hl). auto.
Qed.

Lemma Init_unsupported_platform_witness :
  fst (Init Run.on_freebsd) = Ret (Some UnsupportedPlatformError)
  /\ world (snd (Init Run.on_freebsd)) = world Run.on_freebsd
  /\ config (self (snd (Init Run.on_freebsd))) = config (self Run.on_freebsd).
Proof.
  apply (Init_unsupported_platform Run.on_freebsd);
    [reflexivity | discriminate | discriminate | discriminate | discriminate].
Defined.

(** The override of the platform, when set, is the directory. *)
Lemma resolved_override (s : State) (dir : string) :
  (GOOS (platform (world s)) = "windows" /\ WindowsDir (config (self s)) = dir)
  \/ (GOOS (platform (world s)) = "darwin" /\ MacDir (config (self s)) = dir)
  \/ (GOOS (platform (world s)) = "linux" /\ LinuxDir (config (self s)) = dir) ->
  dir <> "" ->
  resolved s = Ret (inl dir).
Proof.
  intros [[Hos <-]|[[Hos <-]|[Hos <-]]] Hdir.
  - rewrite (resolved_windows s Hos). by rewrite bool_decide_eq_false_2.
  - rewrite (resolved_darwin s Hos). by rewrite bool_decide_eq_false_2.
  - rewrite (resolved_linux s Hos). by rewrite bool_decide_eq_false_2.
Qed.

(** X3. When the override directory of the platform the program runs on
    is set, a file-backed [Init] hands it to [MkdirAll] as it is written,
    whatever the environment and the other two overrides hold, and then
    opens the file name joined to it. *)
Theorem Init_uses_override (s : State) (dir : string) :
  (GOOS (platform (world s)) = "windows" /\ WindowsDir (config (self s)) = dir)
  \/ (GOOS (platform (world s)) = "darwin" /\ MacDir (config (self s)) = dir)
  \/ (GOOS (platform (world s)) = "linux" /\ LinuxDir (config (self s)) = dir) ->
  dir <> "" ->
  InMemory (config (self s)) = false ->
  DbName (config (self s)) <> "" ->
  exists rest,
    emitted s (snd (Init s)) (EvMkdirAll dir perm_0755 :: rest)
    /\ (mkdir_fault (world s) dir = None ->
        exists rest',
          rest = EvOpen "sqlite3"
                   (filepath_Join (platform (world s)) [dir; fileName s])
                 :: rest').
Proof.
  intros Hos Hdir Hmem Hname.
  pose proof (resolved_override s dir Hos Hdir) as Hres.
  exits_of_Init Hmem Hname;
    match goal with
    | H : resolved s = _ |- _ => rewrite Hres in H; try discriminate H;
                                 injection H as <-
    end;
    (eexists; split; [exact Hem|]); intros Hmk; try congruence;
    unfold dataSourceName; eauto.
Qed.

Lemma Init_uses_override_witness :
  exists rest,
    emitted Run.overridden (snd (Init Run.overridden))
      (EvMkdirAll "/srv/db/" perm_0755
       :: EvOpen "sqlite3" "/srv/db/app.db" :: rest).
Proof.
  destruct (Init_uses_override Run.overridden "/srv/db/")
    as (rest & Hem & Hopen);
    [right; right; split; reflexivity | discriminate | reflexivity
    | discriminate |].
  destruct (Hopen eq_refl) as [rest' ->]. exists rest'. exact Hem.
Defined.

(** ** What [Init] leaves as it was *)

Lemma Config_eta (c : Config) :
  set_DB (DB c) (set_savedPath (savedPath c) c) = c.
Proof. by destruct c. Qed.

(** Whatever happens, [Init] assigns at most the handle and the recorded
    path. *)
Lemma Init_config_shape (s : State) :
  exists db path,
    config (self (snd (Init s)))
    = set_DB db (set_savedPath path (config (self s))).
Proof.
  destruct (InMemory (config (self s))) eqn:Hmem.
  { destruct (Init_memory_run s Hmem) as (_ & _ & R).
    destruct (open_fault (world s) ":memory:"); destruct R as [_ ->].
    - eexists _, _. symmetry. apply Config_eta.
    - by exists (Some {| db_id := opened (world s); db_dsn := ":memory:" |}),
                (savedPath (config (self s))). }
  destruct (decide (DbName (config (self s)) = "")) as [Hname|Hname].
  { rewrite (Init_nameless_run s Hmem Hname). cbn.
    eexists _, _. symmetry. apply Config_eta. }
  exits_of_Init Hmem Hname.
  1,2: eexists _, _; symmetry; apply Config_eta.
  1,2,3: by exists (DB (config (self s))), (fileName s).
  by exists (Some (pool s dir)), (fileName s).
Qed.

(** X4. [Init] never changes an option of the configuration: the name, the
    three directories, the flags and the two pool sizes are after [Init],
    failed or not, what they were before. *)
Theorem Init_keeps_options (s : State) :
  DbName (config (self (snd (Init s)))) = DbName (config (self s))
  /\ InMemory (config (self (snd (Init s)))) = InMemory (config (self s))
  /\ MacDir (config (self (snd (Init s)))) = MacDir (config (self s))
  /\ WindowsDir (config (self (snd (Init s)))) = WindowsDir (config (self s))
  /\ LinuxDir (config (self (snd (Init s)))) = LinuxDir (config (self s))
  /\ DeleteOnShutdown (config (self (snd (Init s))))
     = DeleteOnShutdown (config (self s))
  /\ DeleteDir (config (self (snd (Init s)))) = DeleteDir (config (self s))
  /\ CacheShared (config (self (snd (Init s)))) = CacheShared (config (self s))
  /\ MaxOpenConnections (config (self (snd (Init s))))
     = MaxOpenConnections (config (self s))
  /\ MaxIdleConnections (config (self (snd (Init s))))
     = MaxIdleConnections (config (self s)).
Proof.
  destruct (Init_config_shape s) as (db & path & ->). by repeat split.
Qed.

(** ** [Init] and the file system *)

Lemma with_parents_head pf fuel path : path ∈ with_parents pf fuel path.
Proof.
  destruct fuel; cbn; [|case_bool_decide]; apply elem_of_cons; by left.
Qed.

(** The files after [createFileDB]: those before, and, when [MkdirAll]
    was reached and did not fail, the directory with those above it. *)
Lemma createFileDB_files (s : State) :
  files (world (snd (createFileDB s)))
  = match resolved s with
    | Ret (inl dir) =>
        match mkdir_fault (world s) dir with
        | None =>
            files (world s)
            ∪ list_to_set
                (with_parents (platform (world s))
                   (String.length (abs_path (world s) dir))
                   (abs_path (world s) dir))
        | Some _ => files (world s)
        end
    | _ => files (world s)
    end.
Proof.
  unfold createFileDB. go_simpl. rewrite switch_GOOS_pure.
  destruct (resolved_returns s) as [[dir|e] Hres]; rewrite Hres; [|reflexivity].
  unfold os_MkdirAll. cbn [emit mkdir_fault].
  destruct (mkdir_fault (world s) dir) as [e|] eqn:Hmk; [reflexivity|].
  cbn beta iota. unfold sql_Open.
  cbn [with_config with_world self world config emit set_files open_fault
       platform opened set_opened].
  destruct (open_fault (world s) _) as [e|]; [reflexivity|].
  cbn beta iota. unfold SetMaxIdleConns, SetMaxOpenConns, Ping.
  cbn [with_config with_world self world config emit set_files ping_fault
       platform opened set_opened db_dsn].
  destruct (ping_fault (world s) _) as [e|]; [reflexivity|].
  cbn beta iota. unfold Logger_Info.
  cbn [with_config with_world self world config app].
  by destruct (app (self s)).
Qed.

Lemma Init_files (s : State) :
  files (world (snd (Init s))) = files (world s)
  \/ exists dir,
       InMemory (config (self s)) = false
       /\ resolved s = Ret (inl dir)
       /\ mkdir_fault (world s) dir = None
       /\ files (world (snd (Init s)))
          = files (world s)
            ∪ list_to_set
                (with_parents (platform (world s))
                   (String.length (abs_path (world s) dir))
                   (abs_path (world s) dir)).
Proof.
  destruct (InMemory (config (self s))) eqn:Hmem.
  { left. by destruct (Init_memory_run s Hmem) as (_ & ? & _). }
  destruct (decide (DbName (config (self s)) = "")) as [Hname|Hname].
  { left. by rewrite (Init_nameless_run s Hmem Hname). }
  rewrite (Init_file_backed s Hmem Hname), createFileDB_files.
  rewrite resolved_with_app. cbn [with_app world].
  destruct (resolved s) as [[dir|e]|msg] eqn:Hres; [|by left..].
  destruct (mkdir_fault (world s) dir) eqn:Hmk; [by left|].
  right. by exists dir.
Qed.

(** X5. [Init] removes nothing: every path that exists before [Init]
    exists after it, however [Init] ends. *)
Theorem Init_removes_nothing (s : State) :
  files (world s) ⊆ files (world (snd (Init s))).
Proof.
  destruct (Init_files s) as [->|(dir & _ & _ & _ & ->)]; set_solver.
Qed.

(** X6. Once [MkdirAll] has succeeded in a file-backed [Init], the
    directory exists, whether the rest of [Init] succeeds or not. *)
Theorem Init_makes_directory (s : State) (dir : string) :
  InMemory (config (self s)) = false ->
  DbName (config (self s)) <> "" ->
  resolved s = Ret (inl dir) ->
  mkdir_fault (world s) dir = None ->
  abs_path (world s) dir ∈ files (world (snd (Init s))).
Proof.
  intros Hmem Hname Hres Hmk.
  rewrite (Init_file_backed s Hmem Hname), createFileDB_files.
  rewrite resolved_with_app, Hres. cbn [with_app world]. rewrite Hmk.
  apply elem_of_union_r, elem_of_list_to_set, with_parents_head.
Qed.

Lemma Init_makes_directory_witness :
  "/srv/db" ∈ files (world (snd (Init Run.overridden))).
Proof.
  apply (Init_makes_directory Run.overridden "/srv/db/");
    [reflexivity | discriminate | vm_compute; reflexivity | reflexivity].
Defined.

(** ** The log line *)

Ltac no_such_event Hin :=
  repeat (apply elem_of_cons in Hin as [Hin|Hin]; [discriminate Hin|]);
  by apply elem_of_nil in Hin.

(** X7. [Init] writes its log line exactly when it is file-backed and
    succeeds: an in-memory [Init] never logs, and a failed one never
    does. *)
Theorem Init_logs_iff_ready (s : State) :
  exists evs,
    emitted s (snd (Init s)) evs
    /\ ((exists msg args, EvLogInfo msg args ∈ evs)
        <-> InMemory (config (self s)) = false /\ fst (Init s) = Ret None).
Proof.
  destruct (InMemory (config (self s))) eqn:Hmem.
  { destruct (Init_memory_run s Hmem) as (Hem & _ & _).
    eexists. split; [exact Hem|]. split.
    - intros (msg & args & Hin). no_such_event Hin.
    - by intros [? _]. }
  destruct (decide (DbName (config (self s)) = "")) as [Hname|Hname].
  { exists []. rewrite (Init_nameless_run s Hmem Hname). split.
    - unfold emitted. cbn. by rewrite app_nil_r.
    - split; [intros (msg & args & Hin); no_such_event Hin|].
      by intros [_ ?]. }
  exits_of_Init Hmem Hname; (eexists; split; [exact Hem|]).
  1-5: split; [intros (msg & args & Hin); no_such_event Hin|by intros [_ ?]].
  split; [done|]. intros _. eexists _, _. unfold log_line.
  do 5 (apply elem_of_cons; right). apply elem_of_cons. by left.
Qed.

(** ** [Shutdown] *)

(** X8. [Shutdown] leaves the plugin as it is, the stored handle and the
    recorded path included; it adds no file, and all it does to the world
    is at most one [os.RemoveAll]. *)
Theorem Shutdown_frame (s : State) :
  self (snd (Shutdown s)) = self s
  /\ files (world (snd (Shutdown s))) ⊆ files (world s)
  /\ exists evs,
       emitted s (snd (Shutdown s)) evs
       /\ (evs = [] \/ exists path, evs = [EvRemoveAll path]).
Proof.
  unfold Shutdown, emitted. go_simpl.
  destruct (DeleteOnShutdown (config (self s))).
  2:{ repeat split; [done|]. exists []. split; [by rewrite app_nil_r|by left]. }
  destruct (InMemory (config (self s))).
  { repeat split; [done|]. exists []. split; [by rewrite app_nil_r|by left]. }
  cbn beta iota.
  destruct (DeleteDir (config (self s))); unfold os_RemoveAll;
    cbn [with_world self world emit platform remove_fault];
    repeat match goal with
    | |- context [if ?b then _ else _] => destruct b
    | |- context [match ?o with Some _ => _ | None => _ end] => destruct o
    end; cbn;
    (repeat split;
     [try done; unfold remove_tree; intros q Hq;
      by apply elem_of_filter in Hq as [_ ?]
     | eexists; split; [reflexivity|right; by eexists]]).
Qed.

(** The options [Shutdown] looks at are those [Init] was called with. *)
Lemma Init_keeps_shutdown_options (s : State) :
  DeleteOnShutdown (config (self (snd (Init s))))
    = DeleteOnShutdown (config (self s))
  /\ InMemory (config (self (snd (Init s)))) = InMemory (config (self s))
  /\ DeleteDir (config (self (snd (Init s)))) = DeleteDir (config (self s)).
Proof.
  destruct (Init_config_shape s) as (db & path & ->). by repeat split.
Qed.

(** X9. When the configuration does not ask for deletion, or the database
    is in memory, [Shutdown] after [Init] does nothing at all, however
    [Init] ended and whatever [DeleteDir] says. *)
Theorem Shutdown_after_Init_no_op (s : State) :
  DeleteOnShutdown (config (self s)) = false
  \/ InMemory (config (self s)) = true ->
  Shutdown (snd (Init s)) = (Ret None, snd (Init s)).
Proof.
  intros H. apply Shutdown_no_op.
  destruct (Init_keeps_shutdown_options s) as (-> & -> & _). exact H.
Qed.

Lemma Shutdown_after_Init_no_op_witness :
  Shutdown (snd (Init Run.in_memory_deleting))
  = (Ret None, snd (Init Run.in_memory_deleting)).
Proof.
  apply (Shutdown_after_Init_no_op Run.in_memory_deleting).
  right. reflexivity.
Defined.

(** X10. With delete-on-shutdown set, a file-backed plugin that has not
    recorded a path (a fresh one, or one whose [Init] failed before
    [sql.Open]) and does not delete the directory is shut down without
    error and without a file removed: [os.RemoveAll] is called on the
    empty path. *)
Theorem Shutdown_without_recorded_path (s : State) :
  DeleteOnShutdown (config (self s)) = true ->
  InMemory (config (self s)) = false ->
  DeleteDir (config (self s)) = false ->
  savedPath (config (self s)) = "" ->
  fst (Shutdown s) = Ret None
  /\ files (world (snd (Shutdown s))) = files (world s)
  /\ emitted s (snd (Shutdown s)) [EvRemoveAll ""].
Proof.
  intros Hdel Hmem Hdir Hpath. unfold Shutdown, emitted. go_simpl.
  rewrite Hdel, Hmem, Hdir. cbn beta iota. rewrite Hpath. by cbn.
Qed.

Lemma Shutdown_without_recorded_path_witness :
  fst (Init Run.read_only)
    = Ret (Some (DirectoryError (foreign_error "read-only file system")))
  /\ fst (Shutdown (snd (Init Run.read_only))) = Ret None
  /\ files (world (snd (Shutdown (snd (Init Run.read_only)))))
     = files (world (snd (Init Run.read_only)))
  /\ emitted (snd (Init Run.read_only))
       (snd (Shutdown (snd (Init Run.read_only)))) [EvRemoveAll ""].
Proof.
  split; [vm_compute; reflexivity|].
  apply (Shutdown_without_recorded_path (snd (Init Run.read_only)));
    vm_compute; reflexivity.
Defined.

(** ** What a successful [Init] stores *)

(** X11. After a successful file-backed [Init] the stored handle is a new
    one, whatever was stored before, for the data source whose name is the
    directory joined with the recorded path; the recorded path is the file
    name. *)
Theorem Init_ready_state (s : State) :
  InMemory (config (self s)) = false ->
  fst (Init s) = Ret None ->
  exists dir,
    resolved s = Ret (inl dir)
    /\ DB (config (self (snd (Init s))))
       = Some {| db_id := opened (world s);
                 db_dsn := filepath_Join (platform (world s))
                             [dir; savedPath (config (self (snd (Init s))))] |}
    /\ savedPath (config (self (snd (Init s)))) = fileName s.
Proof.
  intros Hmem Hok.
  destruct (Init_ready_records_file_name s Hmem Hok)
    as (dir & Hres & Hdb & _ & Hpath).
  exists dir. split; [exact Hres|]. split; [|exact Hpath].
  by rewrite Hdb, Hpath.
Qed.

Lemma Init_ready_state_witness :
  exists dir,
    resolved Ex.shared_cache = Ret (inl dir)
    /\ DB (config (self (snd (Init Ex.shared_cache))))
       = Some {| db_id := 0;
                 db_dsn := filepath_Join linux
                             [dir; savedPath (config (self (snd (Init Ex.shared_cache))))] |}
    /\ savedPath (config (self (snd (Init Ex.shared_cache))))
       = "app.db?cache=shared".
Proof.
  apply (Init_ready_state Ex.shared_cache); [reflexivity|].
  vm_compute. reflexivity.
Defined.

(** ** [SetDB] and [GetDB] *)

(** X12. [GetDB] after [SetDB] returns the handle that was set, or, when
    [SetDB] was given [nil], the handle stored before: [SetDB] fails
    exactly on [nil], never clears a stored handle, and touches nothing
    but the handle. *)
Theorem SetDB_GetDB (s : State) (newDB : option sql_DB) :
  fst (GetDB (snd (SetDB newDB s)))
  = Ret (match newDB with
         | Some h => Some h
         | None => DB (config (self s))
         end, None)
  /\ (fst (SetDB newDB s) = Ret None <-> newDB <> None)
  /\ (fst (SetDB newDB s) = Ret (Some NilHandleError) <-> newDB = None)
  /\ (is_Some (DB (config (self s)))
      -> is_Some (DB (config (self (snd (SetDB newDB s))))))
  /\ world (snd (SetDB newDB s)) = world s
  /\ app (self (snd (SetDB newDB s))) = app (self s)
  /\ savedPath (config (self (snd (SetDB newDB s))))
     = savedPath (config (self s)).
Proof.
  destruct newDB as [h|]; cbn; repeat split; try done; eauto.
Qed.

(** ** [Execute] and [Query] *)

(** X13. [Execute] changes nothing in the plugin or the world.  Without a
    stored handle it panics.  With one, it calls [Exec] with the command
    and one argument, the slice of all the arguments it was given; it
    returns no error exactly when [Exec] and then [RowsAffected]
    succeeded, with that count, and with any error the count 0. *)
Theorem Execute_result (d : Driver) (cmd : string) (args : list value)
    (s : State) :
  snd (Execute d cmd args s) = s
  /\ (DB (config (self s)) = None ->
      exists msg, fst (Execute d cmd args s) = Panic msg)
  /\ (forall h, DB (config (self s)) = Some h ->
      exists n err,
        fst (Execute d cmd args s) = Ret (n, err)
        /\ (err <> None -> n = 0)
        /\ (err = None
            <-> exists result,
                  DB_Exec d h cmd [value_slice args] = inl result
                  /\ Result_RowsAffected d result = inl n)).
Proof.
  unfold Execute. go_simpl.
  destruct (DB (config (self s))) as [h|]; cbn.
  2:{ repeat split; [eauto|done]. }
  destruct (DB_Exec d h cmd [value_slice args]) as [result|e] eqn:Hexec.
  - destruct (Result_RowsAffected d result) as [n|e] eqn:Hrows; cbn.
    + repeat split; [done|]. intros h' [= <-]. exists n, None.
      rewrite Hexec. repeat split; [done|eauto].
    + repeat split; [done|]. intros h' [= <-]. exists 0, (Some e).
      rewrite Hexec. repeat split; [done|].
      intros (r & [= <-] & Hr). congruence.
  - repeat split; [done|]. intros h' [= <-]. exists 0, (Some e).
    rewrite Hexec. repeat split; [done|]. by intros (r & ? & _).
Qed.

Example Execute_lenient :
  fst (Execute Run.lenient_driver "DELETE FROM t WHERE a = ? AND b = ?"
         [value_of (any_int 1); value_of (any_string "x")]
         (snd (SetDB (Some Run.foreign_pool) Ex.delete_file)))
  = Ret (3, None).
Proof. reflexivity. Qed.

(** X14. With a [database/sql] that refuses an argument which is a slice,
    neither [Execute] nor [Query] ever succeeds, whatever statement and
    arguments they are given, also none: the one argument they pass on is
    a slice. *)
Theorem Execute_Query_refused (d : Driver) :
  (forall h query l elems,
     value_slice elems ∈ l ->
     (exists e, DB_Exec d h query l = inr e)
     /\ (exists e, snd (DB_Query d h query l) = Some e)) ->
  forall cmd args s,
    (forall n, fst (Execute d cmd args s) <> Ret (n, None))
    /\ (forall rows, fst (Query d cmd args s) <> Ret (rows, None)).
Proof.
  intros Hstrict cmd args s. unfold Execute, Query. go_simpl.
  destruct (DB (config (self s))) as [h|]; cbn; [|by split].
  destruct (Hstrict h cmd [value_slice args] args) as [[e He] [e' He']].
  { apply elem_of_cons. by left. }
  rewrite He. split; [done|].
  intros rows Heq. destruct (DB_Query d h cmd [value_slice args]) as [r o].
  cbn in He'. congruence.
Qed.

Lemma strict_driver_refuses (h : sql_DB) (query : string) (l elems : list value) :
  value_slice elems ∈ l ->
  (exists e, DB_Exec Run.strict_driver h query l = inr e)
  /\ (exists e, snd (DB_Query Run.strict_driver h query l) = Some e).
Proof.
  intros Hin.
  assert (Hex : existsb Run.is_slice l = true).
  { apply existsb_exists. exists (value_slice elems).
    split; [by apply list_elem_of_In|done]. }
  cbn. rewrite Hex. cbn. eauto.
Qed.

Lemma Execute_Query_refused_witness :
  (forall n,
     fst (Execute Run.strict_driver "DELETE FROM t" []
            (snd (SetDB (Some Run.foreign_pool) Ex.delete_file)))
     <> Ret (n, None))
  /\ (forall rows,
        fst (Query Run.strict_driver "DELETE FROM t" []
               (snd (SetDB (Some Run.foreign_pool) Ex.delete_file)))
        <> Ret (rows, None)).
Proof.
  apply (Execute_Query_refused Run.strict_driver strict_driver_refuses).
Defined.

(** ** Where the database file lies *)

(** X15. The default on macOS, letter by letter: for a home directory
    [/h1/.../hn] and an ordinary name, the directory [Init] makes is
    [$HOME/Library/Application Support/name/name.db], and the data source
    is the file name inside that directory. *)
Theorem darwin_default_paths (s : State) (home_elems : list string) :
  platform (world s) = darwin ->
  getenv s "HOME" = filepath.unix.absolute home_elems ->
  home_elems <> [] ->
  Forall (fun e => filepath.unix.plain e = true) home_elems ->
  filepath.unix.plain (DbName (config (self s))) = true ->
  MacDir (config (self s)) = "" ->
  let name := DbName (config (self s)) in
  let dir := getenv s "HOME" +:+ "/Library/Application Support/"
             +:+ name +:+ "/" +:+ name +:+ ".db" in
  resolved s = Ret (inl dir)
  /\ dataSourceName s dir = dir +:+ "/" +:+ fileName s.
Proof.
  intros Hpf Hhome Hne Hall Hname Hdir name dir.
  assert (Hdb : filepath.unix.plain (name +:+ ".db") = true)
    by by apply plain_app.
  assert (Hd : dir = filepath.unix.absolute
                       (home_elems ++ ["Library"; "Application Support";
                                       name; name +:+ ".db"])).
  { unfold dir. rewrite Hhome. unfold filepath.unix.absolute.
    rewrite Str_join_app by done. reflexivity. }
  assert (Hfile : filepath.unix.plain (fileName s) = true).
  { rewrite fileName_shared. destruct (CacheShared _); by apply plain_app. }
  assert (Hmore : Forall (fun e => filepath.unix.plain e = true)
                    ["Library"; "Application Support"; name; name +:+ ".db"])
    by (repeat constructor; done).
  split.
  - rewrite resolved_darwin by (by rewrite Hpf).
    rewrite bool_decide_eq_true_2 by done. rewrite Hpf, Hhome.
    cbn [filepath_Join darwin]. rewrite unix_Join_absolute by done.
    by rewrite Hd.
  - unfold dataSourceName. rewrite Hpf. cbn [filepath_Join darwin].
    rewrite Hd.
    rewrite unix_Join_absolute;
      [|by destruct home_elems|by apply Forall_app|by repeat constructor].
    unfold filepath.unix.absolute.
    rewrite (Str_join_app _ (home_elems ++ _) [fileName s]);
      [|by destruct home_elems|done].
    reflexivity.
Qed.

Lemma darwin_default_paths_witness :
  resolved Run.on_darwin
    = Ret (inl "/Users/u/Library/Application Support/app/app.db")
  /\ dataSourceName Run.on_darwin
       "/Users/u/Library/Application Support/app/app.db"
     = "/Users/u/Library/Application Support/app/app.db/app.db".
Proof.
  apply (darwin_default_paths Run.on_darwin ["Users"; "u"]);
    [reflexivity | reflexivity | discriminate | repeat constructor
    | reflexivity | reflexivity].
Defined.

Section LastElement.
Variable IsSep : ascii -> bool.

Lemma upto_last_sep_sep_free e :
  filepath.sep_free IsSep e = true -> filepath.upto_last_sep IsSep e = "".
Proof.
  induction e as [|c e IH]; cbn; [done|].
  intros [Hc He]%andb_true_iff. apply negb_true_iff in Hc.
  by rewrite (IH He), Hc.
Qed.

(** What precedes the last element of a path. *)
Lemma upto_last_sep_app x c e :
  IsSep c = true ->
  filepath.sep_free IsSep e = true ->
  filepath.upto_last_sep IsSep (x +:+ String c e) = x +:+ String c "".
Proof.
  intros Hc He. induction x as [|a x IH].
  - change ("" +:+ String c e) with (String c e). cbn.
    by rewrite (upto_last_sep_sep_free e He), Hc.
  - change (String a x +:+ String c e) with (String a (x +:+ String c e)).
    cbn. rewrite IH. by destruct x.
Qed.

End LastElement.

(** [Dir] undoes [Join] with one more ordinary element. *)
Lemma unix_Dir_Join_absolute elems e :
  elems <> [] ->
  Forall (fun e => filepath.unix.plain e = true) elems ->
  filepath.unix.plain e = true ->
  filepath.unix.Dir (filepath.unix.Join [filepath.unix.absolute elems; e])
  = filepath.unix.absolute elems.
Proof.
  intros Hne Hall He.
  rewrite unix_Join_absolute by (try done; by repeat constructor).
  unfold filepath.unix.Dir, filepath.Dir, filepath.VolumeName.
  cbn [filepath.unix.volumeNameLen filepath.take_str filepath.drop_str
       String.length Nat.ltb Nat.leb andb].
  rewrite andb_false_r. change ("" +:+ ?x) with x.
  replace (filepath.unix.absolute (elems ++ [e]))
    with (filepath.unix.absolute elems +:+ String "/" e).
  2:{ unfold filepath.unix.absolute. by rewrite Str_join_app. }
  rewrite upto_last_sep_app; [|done|by apply plain_sep_free].
  fold filepath.unix.Clean.
  unfold filepath.unix.Clean.
  rewrite (Clean_trailing_separator filepath.unix.IsPathSeparator "/"%char);
    [|done|done|done].
  by apply unix_Clean_absolute.
Qed.

(** X16. On Linux and macOS, when the directory is a clean absolute path
    and the name an ordinary one, the database is opened directly in the
    directory [Init] has made: [filepath.Dir] of the data source name is
    that directory. *)
Theorem data_source_in_directory (s : State) (elems : list string) :
  platform (world s) = linux \/ platform (world s) = darwin ->
  resolved s = Ret (inl (filepath.unix.absolute elems)) ->
  elems <> [] ->
  Forall (fun e => filepath.unix.plain e = true) elems ->
  filepath.unix.plain (DbName (config (self s))) = true ->
  filepath_Dir (platform (world s))
    (dataSourceName s (filepath.unix.absolute elems))
  = filepath.unix.absolute elems.
Proof.
  intros Hpf _ Hne Hall Hname.
  assert (Hfile : filepath.unix.plain (fileName s) = true).
  { rewrite fileName_shared. destruct (CacheShared _); by apply plain_app. }
  unfold dataSourceName.
  destruct Hpf as [-> | ->]; cbn [filepath_Dir filepath_Join linux darwin];
    by apply unix_Dir_Join_absolute.
Qed.

Lemma data_source_in_directory_witness :
  filepath_Dir linux (dataSourceName Ex.delete_file "/home/u/.config/app")
  = "/home/u/.config/app".
Proof.
  apply (data_source_in_directory Ex.delete_file ["home"; "u"; ".config"; "app"]);
    [by left | vm_compute; reflexivity | discriminate | repeat constructor
    | reflexivity].
Defined.

(** X17. A name with a directory in it, [a/b], on Linux with no override:
    [Init] makes [$HOME/.config/a/b] and opens [b.db] not in it but in
    its subdirectory [a], at [$HOME/.config/a/b/a/b.db]. *)
Theorem linux_nested_name_paths (s : State) (home_elems : list string)
    (a b : string) :
  platform (world s) = linux ->
  getenv s "HOME" = filepath.unix.absolute home_elems ->
  home_elems <> [] ->
  Forall (fun e => filepath.unix.plain e = true) home_elems ->
  filepath.unix.plain a = true ->
  filepath.unix.plain b = true ->
  DbName (config (self s)) = a +:+ "/" +:+ b ->
  LinuxDir (config (self s)) = "" ->
  let dir := getenv s "HOME" +:+ "/.config/" +:+ a +:+ "/" +:+ b in
  resolved s = Ret (inl dir)
  /\ dataSourceName s dir
     = dir +:+ "/" +:+ a +:+ "/" +:+ b +:+ ".db"
       +:+ (if CacheShared (config (self s)) then "?cache=shared" else "")
  /\ filepath_Dir (platform (world s)) (dataSourceName s dir)
     = dir +:+ "/" +:+ a.
Proof.
  intros Hpf Hhome Hne Hall Ha Hb Hname Hdir dir.
  set (ext := ".db" +:+ (if CacheShared (config (self s))
                          then "?cache=shared" else "")).
  assert (Hext : filepath.sep_free filepath.unix.IsPathSeparator ext = true)
    by (unfold ext; by destruct (CacheShared _)).
  assert (Hbe : filepath.unix.plain (b +:+ ext) = true) by by apply plain_app.
  assert (Hfile : fileName s = a +:+ "/" +:+ b +:+ ext).
  { unfold fileName, fileName_of, ext. rewrite Hname.
    destruct (CacheShared _); by rewrite !Str_app_assoc. }
  assert (Hd : dir = filepath.unix.absolute (home_elems ++ [".config"; a; b])).
  { unfold dir. rewrite Hhome. unfold filepath.unix.absolute.
    rewrite Str_join_app by done. reflexivity. }
  assert (Hall3 : Forall (fun e => filepath.unix.plain e = true)
                    (home_elems ++ [".config"; a; b])).
  { apply Forall_app. split; [done|]. by repeat constructor. }
  assert (Hall4 : Forall (fun e => filepath.unix.plain e = true)
                    ((home_elems ++ [".config"; a; b]) ++ [a])).
  { apply Forall_app. split; [done|]. by repeat constructor. }
  assert (Hres : resolved s = Ret (inl dir)).
  { rewrite resolved_linux by (by rewrite Hpf).
    rewrite bool_decide_eq_true_2 by done. rewrite Hpf, Hhome, Hname.
    cbn [filepath_Join linux]. do 2 f_equal.
    unfold filepath.unix.Join, filepath.Join. cbn [Str.is_empty filepath.unix.absolute].
    fold (filepath.unix.absolute home_elems).
    replace (Str.join _ _)
      with (filepath.unix.absolute (home_elems ++ [".config"; a; b])).
    - rewrite Hd. by apply unix_Clean_absolute.
    - unfold filepath.unix.absolute. by rewrite Str_join_app. }
  assert (Hdsn : dataSourceName s dir
                 = filepath.unix.absolute
                     (((home_elems ++ [".config"; a; b]) ++ [a]) ++ [b +:+ ext])).
  { unfold dataSourceName. rewrite Hpf, Hfile, Hd. cbn [filepath_Join linux].
    unfold filepath.unix.Join, filepath.Join.
    cbn [Str.is_empty filepath.unix.absolute].
    fold (filepath.unix.absolute (home_elems ++ [".config"; a; b])).
    replace (Str.join _ _)
      with (filepath.unix.absolute
              (((home_elems ++ [".config"; a; b]) ++ [a]) ++ [b +:+ ext])).
    - apply unix_Clean_absolute. apply Forall_app. split; [done|].
      by repeat constructor.
    - unfold filepath.unix.absolute.
      rewrite (Str_join_app _ (_ ++ [a]) [b +:+ ext]);
        [|by destruct home_elems|done].
      rewrite (Str_join_app _ (home_elems ++ _) [a]);
        [|by destruct home_elems|done].
      cbn [Str.join]. by rewrite !Str_app_assoc. }
  split; [exact Hres|]. split.
  - rewrite Hdsn, Hd. unfold filepath.unix.absolute, ext.
    rewrite (Str_join_app _ (_ ++ [a]) [_]); [|by destruct home_elems|done].
    rewrite (Str_join_app _ (home_elems ++ _) [a]);
      [|by destruct home_elems|done].
    cbn [Str.join]. by rewrite !Str_app_assoc.
  - rewrite Hdsn, Hpf. cbn [filepath_Dir linux].
    rewrite <- (unix_Join_absolute _ [b +:+ ext]);
      [|by destruct home_elems|done|by repeat constructor].
    rewrite unix_Dir_Join_absolute; [|by destruct home_elems|done|done].
    rewrite Hd. unfold filepath.unix.absolute.
    rewrite (Str_join_app _ (home_elems ++ _) [a]);
      [|by destruct home_elems|done].
    reflexivity.
Qed.

Lemma linux_nested_name_paths_witness :
  resolved Run.nested = Ret (inl "/home/u/.config/data/app")
  /\ dataSourceName Run.nested "/home/u/.config/data/app"
     = "/home/u/.config/data/app/data/app.db"
  /\ filepath_Dir linux (dataSourceName Run.nested "/home/u/.config/data/app")
     = "/home/u/.config/data/app/data".
Proof.
  apply (linux_nested_name_paths Run.nested ["home"; "u"] "data" "app");
    [reflexivity | reflexivity | discriminate | repeat constructor
    | reflexivity | reflexivity | reflexivity | reflexivity].
Defined.

(** ** [Init] without a host application *)

(** X18. [Init] panics, on the [nil] application it would log through,
    exactly when it is file-backed, every call has succeeded, and
    [application.Get()] has returned [nil]; the panic comes after the
    ping, and the handle is not stored. *)
Theorem Init_panics_iff (s : State) :
  ((exists msg, fst (Init s) = Panic msg)
   <-> InMemory (config (self s)) = false
       /\ DbName (config (self s)) <> ""
       /\ globalApplication (world s) = None
       /\ exists dir,
            resolved s = Ret (inl dir)
            /\ mkdir_fault (world s) dir = None
            /\ open_fault (world s) (dataSourceName s dir) = None
            /\ ping_fault (world s) (dataSourceName s dir) = None)
  /\ ((exists msg, fst (Init s) = Panic msg) ->
      DB (config (self (snd (Init s)))) = DB (config (self s))
      /\ exists dir pre,
           emitted s (snd (Init s)) (pre ++ [EvPing (pool s dir)])).
Proof.
  destruct (InMemory (config (self s))) eqn:Hmem.
  { destruct (Init_memory_run s Hmem) as (_ & _ & R).
    assert (Hno : ~ exists msg, fst (Init s) = Panic msg).
    { intros [msg Hp].
      destruct (open_fault (world s) ":memory:"); destruct R as [R _];
        congruence. }
    split; [split|]; [done|by intros [? _]|done]. }
  destruct (decide (DbName (config (self s)) = "")) as [Hname|Hname].
  { assert (Hno : ~ exists msg, fst (Init s) = Panic msg).
    { intros [msg Hp]. rewrite (Init_nameless_run s Hmem Hname) in Hp.
      discriminate. }
    split; [split|]; [done|by intros (_ & ? & _)|done]. }
  exits_of_Init Hmem Hname.
  1-4,6: (split; [split|]; [by intros [? ?]| |by intros [? ?]]);
    intros (_ & _ & Happ & dir' & Hres & Hmk & Hop & Hpi);
    match goal with
    | H : resolved _ = _ |- _ => rewrite Hres in H; try discriminate H;
                                 injection H as <-
    end; congruence.
  split; [split|].
  - intros _. repeat split; try done. by exists dir.
  - eauto.
  - intros _. split; [done|].
    exists dir, [EvMkdirAll dir perm_0755;
                 EvOpen "sqlite3" (dataSourceName s dir);
                 EvSetMaxIdleConns (pool s dir) (idle s);
                 EvSetMaxOpenConns (pool s dir) (open s)].
    exact Hem.
Qed.

Example Init_panics_without_host :
  exists msg, fst (Init Run.no_host) = Panic msg.
Proof. eexists. vm_compute. reflexivity. Qed.
